(** * ping-py-server: the monitor engine of [ping/monitor_service.py]

    A shallow embedding of the health-check tasks ([can_connect],
    [process_notification], [cleanup_monitor]) together with the part of
    [ping/database_service.py] and [ping/models/monitor_device.py] they use,
    followed by the properties of the engine. *)

From Stdlib Require Import ZArith Ascii String List Bool.
From stdpp Require Import gmap strings list pretty.

Local Open Scope string_scope.
Local Open Scope list_scope.
Local Open Scope Z_scope.

(** ** Python builtins used by the service *)

Module Py.

(** The exceptions that the modelled code can raise. *)
Inductive exn :=
| ValueError
| AttributeError
| KeyError
| UnboundLocalError
| OSError
| SMTPException.

(** Outcome of a call: a returned value or a raised exception. *)
Inductive result (A : Type) :=
| Return (a : A)
| Raise (e : exn).
Arguments Return {A} a.
Arguments Raise {A} e.

Definition bind {A B} (r : result A) (k : A → result B) : result B :=
  match r with
  | Return a => k a
  | Raise e => Raise e
  end.

(** [str.replace(old, new)] for a non-empty [old]: scan left to right,
    [skip] counts the characters of a match still to be dropped. *)
Fixpoint replace_from (old new : string) (skip : nat) (s : string) : string :=
  match s with
  | EmptyString => EmptyString
  | String c s' =>
      match skip with
      | S n => replace_from old new n s'
      | O =>
          if String.prefix old s
          then new +:+ replace_from old new (Nat.pred (String.length old)) s'
          else String c (replace_from old new O s')
      end
  end.

(** [str.replace("", new)] puts [new] before every character and at the end. *)
Fixpoint interleave (new s : string) : string :=
  match s with
  | EmptyString => new
  | String c s' => new +:+ String c (interleave new s')
  end.

Definition replace (old new s : string) : string :=
  match old with
  | EmptyString => interleave new s
  | String _ _ => replace_from old new O s
  end.

(** Whitespace that [int(str)] skips around the digits of an ASCII string:
    tab, line feed, vertical tab, form feed, carriage return and space. *)
Definition is_space (c : ascii) : bool :=
  let n := nat_of_ascii c in
  ((9 <=? n)%nat && (n <=? 13)%nat) || (n =? 32)%nat.

Fixpoint lstrip (s : string) : string :=
  match s with
  | String c s' => if is_space c then lstrip s' else s
  | EmptyString => EmptyString
  end.

Fixpoint rstrip (s : string) : string :=
  match s with
  | EmptyString => EmptyString
  | String c s' =>
      match rstrip s' with
      | EmptyString => if is_space c then EmptyString else String c EmptyString
      | r => String c r
      end
  end.

Definition digit_value (c : ascii) : option Z :=
  let n := nat_of_ascii c in
  if (48 <=? n)%nat && (n <=? 57)%nat then Some (Z.of_nat n - 48) else None.

(** What the scanner of [int] has just read. *)
Inductive int_prev := At_start | After_digit | After_underscore.

(** Decimal digits, single underscores allowed between two digits. *)
Fixpoint int_digits (acc : Z) (prev : int_prev) (s : string) : option Z :=
  match s with
  | EmptyString =>
      match prev with
      | After_digit => Some acc
      | _ => None
      end
  | String c s' =>
      match digit_value c with
      | Some v => int_digits (10 * acc + v) After_digit s'
      | None =>
          if Ascii.eqb c "_"
          then match prev with
               | After_digit => int_digits acc After_underscore s'
               | _ => None
               end
          else None
      end
  end.

(** [int(s)] for an ASCII [str] in base ten; [None] stands for [ValueError].
    Characters outside ASCII, which [int] maps to spaces and digits before it
    parses, are not read as such here. *)
Definition int (s : string) : option Z :=
  match rstrip (lstrip s) with
  | String "+" d => int_digits 0 At_start d
  | String "-" d => Z.opp <$> int_digits 0 At_start d
  | d => int_digits 0 At_start d
  end.

(** [f'{x}'] for an [Optional[int]] and an [Optional[str]]. *)
Definition fmt_opt_int (x : option Z) : string :=
  match x with
  | None => "None"
  | Some n => pretty n
  end.

Definition fmt_opt_str (x : option string) : string :=
  match x with
  | None => "None"
  | Some s => s
  end.

(** [==] between an [int] and a [str] is always [False]. *)
Definition int_eq_str (n : Z) (s : string) : bool := false.

End Py.

Global Instance result_bind : MBind Py.result := λ A B k r, Py.bind r k.
Global Instance result_ret : MRet Py.result := λ A a, Py.Return a.

(** ** [ping/models/monitor_device.py] *)

Record MonitorDevice := {
  id : Z;
  name : string;
  identifier : string;
  port : option Z;
  proto : option string;
  persist : bool;
  monitor_trigger : string;
  monitor_start_utc : string;
  monitor_end_utc : string;
  requested_by : string;
  notify : string;
  comments : option string;
  email_subject : string;
  email_body : string;
  been_notified : bool
}.

(** [device.been_notified = b], every other attribute kept. *)
Definition set_been_notified (b : bool) (device : MonitorDevice) : MonitorDevice :=
  {| id := id device;
     name := name device;
     identifier := identifier device;
     port := port device;
     proto := proto device;
     persist := persist device;
     monitor_trigger := monitor_trigger device;
     monitor_start_utc := monitor_start_utc device;
     monitor_end_utc := monitor_end_utc device;
     requested_by := requested_by device;
     notify := notify device;
     comments := comments device;
     email_subject := email_subject device;
     email_body := email_body device;
     been_notified := b |}.

(** ** [format_message], the local function of [process_notification] *)

(** The dict [template_mappings], in insertion order. *)
Definition template_mappings (device : MonitorDevice) : list (string * string) :=
  [ ("$name", name device);
    ("$identifier", identifier device);
    ("$port", Py.fmt_opt_int (port device));
    ("$protocol", Py.fmt_opt_str (proto device));
    ("$trigger", monitor_trigger device);
    ("$requested_by", requested_by device);
    ("$comments", Py.fmt_opt_str (comments device)) ].

Definition format_message (device : MonitorDevice) (str_template : string) : string :=
  foldl (λ formatted_message '(mapping, value),
           Py.replace mapping value formatted_message)
        str_template (template_mappings device).


(** ** [ping/database_service.py]

    The table [monitor_device] is the list of its rows; [id] is its primary
    key. *)

Module DatabaseService.

Definition table := list MonitorDevice.

Definition get_all_devices (db : table) : list MonitorDevice := db.

Definition read_devices (device_ids : list Z) (db : table) : list MonitorDevice :=
  filter (λ row, id row ∈ device_ids) db.

(** The state of [device] written over a row that has its primary key. *)
Definition overwrite (device : MonitorDevice) (row : MonitorDevice) : MonitorDevice :=
  if id row =? id device then device else row.

(** [session.merge(device)]: the state of [device] is copied onto the row
    that has its primary key, or a row is added when there is none. *)
Definition merge (device : MonitorDevice) (db : table) : table :=
  if existsb (λ row, id row =? id device) db
  then overwrite device <$> db
  else db ++ [device].

(** [update_devices] on [MonitorDevice] objects, the branch that the
    monitor tasks take. *)
Definition update_devices (devices : list MonitorDevice) (db : table) : table :=
  foldl (λ db device, merge device db) db devices.

Definition delete_devices (device_ids : list Z) (db : table) : table :=
  filter (λ row, id row ∉ device_ids) db.

End DatabaseService.

(** ** [MonitorService] *)

Module MonitorService.

Definition remove_devices (device_ids : list Z) (db : DatabaseService.table) :=
  DatabaseService.delete_devices device_ids db.

Definition update_devices (devices : list MonitorDevice) (db : DatabaseService.table) :=
  DatabaseService.update_devices devices db.

(** The comprehension [{device.id: device for device in rows}]. *)
Definition by_id (rows : list MonitorDevice) : gmap Z MonitorDevice :=
  foldl (λ devices device, <[id device := device]> devices) ∅ rows.

(** [get_devices(device_ids)]; the empty list also stands for the default
    [None], [not device_ids] being true of both. *)
Definition get_devices (device_ids : list Z) (db : DatabaseService.table)
  : gmap Z MonitorDevice :=
  match device_ids with
  | [] => by_id (DatabaseService.get_all_devices db)
  | _ => by_id (DatabaseService.read_devices device_ids db)
  end.

End MonitorService.

(** ** The world outside the process *)

(** An element of an argument vector given to [subprocess.run]. *)
Inductive arg :=
| Str (s : string)
| Int (n : Z).

(** The message built with [MIMEMultipart]. *)
Record email := {
  To : string;
  From : string;
  reply_to : string;
  Subject : string;
  body : string
}.

(** What the operating system and the mail server answer during one task:
    [subprocess_run argv] is the return code of the process, or [None] when
    [subprocess.run] raises; the three SMTP answers say whether [SMTP(server)],
    [send_message(msg)] and [quit()] return normally. *)
Record environment := {
  subprocess_run : list arg → option Z;
  smtp_connect : string → bool;
  smtp_send_message : email → bool;
  smtp_quit : bool
}.

(** Calls made on the SMTP library. *)
Inductive smtp_call :=
| SMTP (server : string)
| Send_message (msg : email)
| Quit.

(** The state a task reads and writes: the device table, the SMTP calls made
    so far and the messages that [send_message] accepted. *)
Record world := {
  db : DatabaseService.table;
  smtp_calls : list smtp_call;
  delivered : list email
}.

(** ** The tasks of [ping/monitor_service.py] *)

Definition should_cleanup (device : MonitorDevice) : bool :=
  if been_notified device && negb (persist device) then true else false.

Definition cleanup_monitor (db : DatabaseService.table) : DatabaseService.table :=
  let devices_pending_removal :=
    (filter (λ item, should_cleanup item.2 = true)
            (map_to_list (MonitorService.get_devices [] db))).*1 in
  MonitorService.remove_devices devices_pending_removal db.

(** [subprocess.run(argv, ...)] as an outcome. *)
Definition run (env : environment) (argv : list arg) : Py.result Z :=
  match subprocess_run env argv with
  | Some returncode => Py.Return returncode
  | None => Py.Raise Py.OSError
  end.

(** [can_connect(device_id)]: the device id with [Some true], [Some false]
    or [None], the last being the result of the [except] branch. *)
Definition can_connect (env : environment) (db : DatabaseService.table)
    (device_id : Z) : Py.result (Z * option bool) :=
  match MonitorService.get_devices [] db !! device_id with
  | None => Py.Raise Py.ValueError
  | Some device =>
      let proc :=
        match port device with
        | None =>
            run env [Str "/bin/ping"; Str "-W"; Str "1"; Str "-c"; Str "3";
                     Str (identifier device)]
        | Some p =>
            if Py.int_eq_str p "TCP"
            then run env [Str "/bin/nc"; Str "-z"; Str "-w"; Str "1";
                          Str (identifier device); Int p]
            else if Py.int_eq_str p "UDP"
            then run env [Str "/bin/nc"; Str "-z"; Str "-w"; Str "1"; Str "-u";
                          Str (identifier device); Int p]
            else Py.Raise Py.ValueError
        end in
      match proc with
      | Py.Raise _ => Py.Return (device_id, None)
      | Py.Return returncode =>
          Py.Return (device_id, Some (if returncode =? 0 then true else false))
      end
  end.

(** What [process_notification] settles before it builds the message: it
    returns early ([NO_OP]) or goes on to send the two texts ([NOTIFY]). *)
Inductive decision :=
| NO_OP
| NOTIFY (email_subject_text email_body_text : string).

Definition int_or_raise (s : string) : Py.result Z :=
  match Py.int s with
  | Some n => Py.Return n
  | None => Py.Raise Py.ValueError
  end.

Definition state_name (can_connect : bool) : string :=
  if can_connect then "ONLINE" else "OFFLINE".

(** The trigger criteria of [process_notification], tested inside the
    window: the two branches that build a message and the early return. *)
Definition trigger_criteria (device : MonitorDevice) (can_connect : bool) : decision :=
  if ((can_connect && String.eqb (monitor_trigger device) "ONLINE")
      || (negb can_connect && String.eqb (monitor_trigger device) "OFFLINE"))
     && negb (been_notified device)
  then
    NOTIFY ("[Ping] " +:+ format_message device (email_subject device))
           (format_message device (email_body device))
  else if persist device
          && ((can_connect && String.eqb (monitor_trigger device) "OFFLINE")
              || (negb can_connect && String.eqb (monitor_trigger device) "ONLINE"))
          && been_notified device
  then
    NOTIFY ("[Ping] " +:+ name device +:+ " is now " +:+ state_name can_connect)
           (name device +:+ " is now back " +:+ state_name can_connect +:+ ".")
  else NO_OP.

(** The window test around the criteria; [now_hour] and [now_minute] are the
    two readings of [datetime.now(UTC)]. *)
Definition notification_decision (device : MonitorDevice) (can_connect : bool)
    (now_hour now_minute : Z) : Py.result decision :=
  let current_time_utc := now_hour * 100 + now_minute in
  trigger_start_utc ← int_or_raise (Py.replace ":" "" (monitor_start_utc device));
  trigger_end_utc ← int_or_raise (Py.replace ":" "" (monitor_end_utc device));
  if (current_time_utc >=? trigger_start_utc) && (current_time_utc <=? trigger_end_utc)
  then mret (trigger_criteria device can_connect)
  else mret NO_OP.

Definition log_call (c : smtp_call) (w : world) : world :=
  {| db := db w; smtp_calls := smtp_calls w ++ [c]; delivered := delivered w |}.

(** The [else] branch of the [try]: flip the flag and write the device. *)
Definition record_delivery (device : MonitorDevice) (msg : email) (w : world) : world :=
  let device' :=
    if persist device && been_notified device
    then set_been_notified false device
    else set_been_notified true device in
  {| db := MonitorService.update_devices [device'] (db w);
     smtp_calls := smtp_calls w;
     delivered := delivered w ++ [msg] |}.

(** The rest of [process_notification]: the message, then
    [try] / [except] / [else] / [finally]. *)
Definition send_notification (config : gmap string string) (env : environment)
    (device : MonitorDevice) (email_subject_text email_body_text : string)
    (w : world) : world * Py.result () :=
  match config !! "SENDER_EMAIL" with
  | None => (w, Py.Raise Py.KeyError)
  | Some sender_email =>
  match config !! "REPLY_TO_EMAIL" with
  | None => (w, Py.Raise Py.KeyError)
  | Some reply_to_email =>
      let msg := {| To := notify device;
                    From := sender_email;
                    reply_to := reply_to_email;
                    Subject := email_subject_text;
                    body := email_body_text |} in
      match config !! "SMTP_SERVER" with
      | None =>
          (* KeyError is caught; [finally] then finds [smtp_server] unbound *)
          (w, Py.Raise Py.UnboundLocalError)
      | Some server =>
          let w := log_call (SMTP server) w in
          if smtp_connect env server
          then
            let w := log_call (Send_message msg) w in
            let w := if smtp_send_message env msg then record_delivery device msg w else w in
            let w := log_call Quit w in
            (w, if smtp_quit env then Py.Return () else Py.Raise Py.SMTPException)
          else (w, Py.Raise Py.UnboundLocalError)
      end
  end
  end.

Definition process_notification (config : gmap string string) (env : environment)
    (now_hour now_minute : Z) (device_and_connectivity : Z * option bool)
    (w : world) : world * Py.result () :=
  let '(device_id, can_connect) := device_and_connectivity in
  match MonitorService.get_devices [] (db w) !! device_id with
  | None => (w, Py.Raise Py.AttributeError)
  | Some device =>
      match can_connect with
      | None => (w, Py.Raise Py.ValueError)
      | Some can_connect =>
          match notification_decision device can_connect now_hour now_minute with
          | Py.Raise e => (w, Py.Raise e)
          | Py.Return NO_OP => (w, Py.Return ())
          | Py.Return (NOTIFY email_subject_text email_body_text) =>
              send_notification config env device email_subject_text email_body_text w
          end
      end
  end.

(** [chain(can_connect.s(id), process_notification.s())]: the second task runs
    on the result of the first, and not at all when the first raises. *)
Definition workflow (config : gmap string string) (env : environment)
    (now_hour now_minute : Z) (device_id : Z) (w : world) : world * Py.result () :=
  match can_connect env (db w) device_id with
  | Py.Raise e => (w, Py.Raise e)
  | Py.Return device_and_connectivity =>
      process_notification config env now_hour now_minute device_and_connectivity w
  end.

(** One evaluation per cycle of the same device with the same probe result;
    each cycle has its own environment and clock readings. *)
Definition evaluations (config : gmap string string) (device_id : Z)
    (can_connect : bool) (cycles : list (environment * Z * Z)) (w : world) : world :=
  foldl (λ w '(env, now_hour, now_minute),
           (process_notification config env now_hour now_minute
              (device_id, Some can_connect) w).1)
        w cycles.

(** ** [MonitorDeviceEncoder] of [ping/models/monitor_device.py] *)

(** The JSON values that the attributes of a device are encoded to. *)
Inductive json :=
| JNull
| JBool (b : bool)
| JInt (n : Z)
| JStr (s : string).

Definition json_of_opt_int (x : option Z) : json :=
  match x with
  | Some n => JInt n
  | None => JNull
  end.

Definition json_of_opt_str (x : option string) : json :=
  match x with
  | Some s => JStr s
  | None => JNull
  end.

Module MonitorDeviceEncoder.

Definition encodable_vals : list string :=
  ["id"; "name"; "identifier"; "port"; "proto"; "persist"; "monitor_trigger";
   "monitor_start_utc"; "monitor_end_utc"; "requested_by"; "notify"; "comments";
   "email_subject"; "email_body"].

(** [getattr(obj, val)] on a [MonitorDevice]; [None] stands for
    [AttributeError]. *)
Definition getattr (obj : MonitorDevice) (val : string) : option json :=
  if String.eqb val "id" then Some (JInt (id obj))
  else if String.eqb val "name" then Some (JStr (name obj))
  else if String.eqb val "identifier" then Some (JStr (identifier obj))
  else if String.eqb val "port" then Some (json_of_opt_int (port obj))
  else if String.eqb val "proto" then Some (json_of_opt_str (proto obj))
  else if String.eqb val "persist" then Some (JBool (persist obj))
  else if String.eqb val "monitor_trigger" then Some (JStr (monitor_trigger obj))
  else if String.eqb val "monitor_start_utc" then Some (JStr (monitor_start_utc obj))
  else if String.eqb val "monitor_end_utc" then Some (JStr (monitor_end_utc obj))
  else if String.eqb val "requested_by" then Some (JStr (requested_by obj))
  else if String.eqb val "notify" then Some (JStr (notify obj))
  else if String.eqb val "comments" then Some (json_of_opt_str (comments obj))
  else if String.eqb val "email_subject" then Some (JStr (email_subject obj))
  else if String.eqb val "email_body" then Some (JStr (email_body obj))
  else if String.eqb val "been_notified" then Some (JBool (been_notified obj))
  else None.

(** [default(obj)] for a [MonitorDevice]: the dict, in insertion order. *)
Definition default (obj : MonitorDevice) : option (list (string * json)) :=
  mapM (λ val, (λ value, (val, value)) <$> getattr obj val) encodable_vals.

End MonitorDeviceEncoder.

(** ** [ping/auth_middleware.py] and the token routes of [ping/__init__.py] *)

Module Auth.

(** The ASCII characters that [str.isspace] accepts, on which [str.split()]
    cuts: those of [int] and the four separators 28 to 31. *)
Definition is_space (c : ascii) : bool :=
  let n := nat_of_ascii c in
  ((9 <=? n)%nat && (n <=? 13)%nat) || ((28 <=? n)%nat && (n <=? 32)%nat).

(** [str.split()]: the words between runs of whitespace; [word] is the word
    being read. *)
Fixpoint split_from (word : string) (s : string) : list string :=
  match s with
  | EmptyString =>
      match word with
      | EmptyString => []
      | _ => [word]
      end
  | String c s' =>
      if is_space c
      then match word with
           | EmptyString => split_from EmptyString s'
           | _ => word :: split_from EmptyString s'
           end
      else split_from (word +:+ String c EmptyString) s'
  end.

Definition split (s : string) : list string := split_from EmptyString s.

(** What [jwt.decode(token, key, algorithms=['HS256'])] does: it returns the
    payload, of which the code reads ['exp'] ([None] when the payload has no
    such key), or it raises. *)
Inductive jwt_result :=
| Payload (exp : option Z)
| DecodeError
| ExpiredSignatureError
| OtherError.

(** The library and the clock during one request: [now_timestamp] is
    [int(datetime.now(UTC).timestamp())]. *)
Record oracle := {
  jwt_decode : string → option string → jwt_result;
  now_timestamp : Z
}.

(** The two entries of [app.config] that the token code uses. *)
Record app_config := {
  SECRET_KEY : option string;
  REVOKED_TOKENS : gmap string Z
}.

(** What a view hands back: a body with a status, or the [IndexError] of an
    index into [auth_data]. *)
Inductive answer :=
| Respond (body : string) (status : Z)
| IndexError.

(** The outcome of a decorated view: an answer of the decorator, or the
    result of the call of the view [f]. *)
Inductive guarded (A : Type) :=
| Answer (a : answer)
| View (result : A).
Arguments Answer {A} a.
Arguments View {A} result.

(** Truth value of [REVOKED_TOKENS.get(token)]. *)
Definition truthy (x : option Z) : bool :=
  match x with
  | None => false
  | Some n => negb (n =? 0)
  end.

(** [token_required(f)], the function [decorated]; [f] is the result that the
    view gives when it is called. *)
Definition token_required {A} (f : A) (config : app_config) (env : oracle)
    (headers : gmap string string) : guarded A :=
  match headers !! "Authorization" with
  | None => Answer (Respond "" 401)
  | Some authorization =>
      let auth_data := split authorization in
      match auth_data !! 0%nat with
      | None => Answer IndexError
      | Some scheme =>
          if negb (String.eqb scheme "Bearer") then Answer (Respond "" 401)
          else
            match auth_data !! 1%nat with
            | None => Answer IndexError
            | Some token =>
                if String.eqb token "" then Answer (Respond "" 401)
                else
                  match SECRET_KEY config with
                  | None => Answer (Respond "" 500)
                  | Some key =>
                      match jwt_decode env token (Some key) with
                      | Payload (Some exp) =>
                          if (exp <=? now_timestamp env)
                             || truthy (REVOKED_TOKENS config !! token)
                          then Answer (Respond "" 401)
                          else View f
                      | Payload None => Answer (Respond "" 500)
                      | DecodeError => Answer (Respond "" 400)
                      | ExpiredSignatureError => Answer (Respond "" 401)
                      | OtherError => Answer (Respond "" 500)
                      end
                  end
            end
      end
  end.

(** [process_token_req] for the method DELETE: the check of the header, then
    the branch that revokes the token. *)
Definition process_token_req_DELETE (config : app_config) (env : oracle)
    (headers : gmap string string) : app_config * answer :=
  match headers !! "Authorization" with
  | None => (config, Respond "" 401)
  | Some authorization =>
      let auth_data := split authorization in
      match auth_data !! 0%nat with
      | None => (config, IndexError)
      | Some scheme =>
          if negb (String.eqb scheme "Bearer") then (config, Respond "" 400)
          else
            match auth_data !! 1%nat with
            | None => (config, IndexError)
            | Some token =>
                match jwt_decode env token (SECRET_KEY config) with
                | Payload (Some exp) =>
                    (if exp >? now_timestamp env
                     then {| SECRET_KEY := SECRET_KEY config;
                             REVOKED_TOKENS := <[token := exp]> (REVOKED_TOKENS config) |}
                     else config,
                     Respond "" 200)
                | Payload None => (config, Respond "" 500)
                | DecodeError => (config, Respond "" 400)
                | ExpiredSignatureError => (config, Respond "" 500)
                | OtherError => (config, Respond "" 500)
                end
            end
      end
  end.

End Auth.

(** ** The users of [ping/database_service.py] and [ping/auth_service.py] *)

Module Users.

(** [ping/models/user.py]; [username] is the primary key. *)
Record User := {
  username : string;
  secret : string
}.

(** Outcome of a query or a commit. *)
Inductive outcome (A : Type) :=
| Ok (a : A)
| NoResultFound
| MultipleResultsFound
| IntegrityError
| VerifyError.
Arguments Ok {A} a.
Arguments NoResultFound {A}.
Arguments MultipleResultsFound {A}.
Arguments IntegrityError {A}.
Arguments VerifyError {A}.


(** [read_user]: [.one()] wants exactly one row. *)
Definition read_user (name : string) (users : list User) : outcome User :=
  match filter (λ row, username row = name) users with
  | [] => NoResultFound
  | [user] => Ok user
  | _ => MultipleResultsFound
  end.

(** [verify_user]; [argon2_verify password hash] is [None] when
    [argon2.verify] raises. *)
Definition verify_user (argon2_verify : string → string → option bool)
    (name password : string) (users : list User) : outcome (option User) :=
  match read_user name users with
  | Ok user =>
      match argon2_verify password (secret user) with
      | Some true => Ok (Some user)
      | Some false => Ok None
      | None => VerifyError
      end
  | NoResultFound => NoResultFound
  | MultipleResultsFound => MultipleResultsFound
  | IntegrityError => IntegrityError
  | VerifyError => VerifyError
  end.

End Users.

(** ** Vocabulary of the properties *)

(** The device has the window [window_start .. window_end] (as hhmm numbers). *)
Definition window_of (device : MonitorDevice) (window_start window_end : Z) : Prop :=
  Py.int (Py.replace ":" "" (monitor_start_utc device)) = Some window_start
  ∧ Py.int (Py.replace ":" "" (monitor_end_utc device)) = Some window_end.

(** The probe result is the state the device waits for. *)
Definition matches_trigger (device : MonitorDevice) (can_connect : bool) : Prop :=
  (can_connect = true ∧ monitor_trigger device = "ONLINE")
  ∨ (can_connect = false ∧ monitor_trigger device = "OFFLINE").

(** The probe result is the opposite of the state the device waits for. *)
Definition opposes_trigger (device : MonitorDevice) (can_connect : bool) : Prop :=
  (can_connect = true ∧ monitor_trigger device = "OFFLINE")
  ∨ (can_connect = false ∧ monitor_trigger device = "ONLINE").

(** The mail server is configured, answers, and accepts [msg]. *)
Definition delivers (config : gmap string string) (env : environment) (msg : email) : Prop :=
  config !! "SENDER_EMAIL" = Some (From msg)
  ∧ config !! "REPLY_TO_EMAIL" = Some (reply_to msg)
  ∧ ∃ server, config !! "SMTP_SERVER" = Some server
              ∧ smtp_connect env server = true
              ∧ smtp_send_message env msg = true.

(** The evaluation of device [device_id] in world [w] decides to notify. *)
Definition decides_NOTIFY (w : world) (device_id : Z) (can_connect : bool)
    (now_hour now_minute : Z) : Prop :=
  ∃ device email_subject_text email_body_text,
    MonitorService.get_devices [] (db w) !! device_id = Some device
    ∧ notification_decision device can_connect now_hour now_minute
      = Py.Return (NOTIFY email_subject_text email_body_text).

(** One row before and after a workflow on [device_id]: the same row, or the
    row of that device with the flag flipped and nothing else changed. *)
Definition flag_only (device_id : Z) (row row' : MonitorDevice) : Prop :=
  row' = row
  ∨ (id row = device_id ∧ row' = set_been_notified (negb (been_notified row)) row).

(** The character [c] occurs in [s]. *)
Fixpoint occurs (c : ascii) (s : string) : bool :=
  match s with
  | EmptyString => false
  | String a s' => Ascii.eqb a c || occurs c s'
  end.

(** Every character of [s] is an ASCII character. *)
Fixpoint is_ascii (s : string) : bool :=
  match s with
  | EmptyString => true
  | String a s' => (nat_of_ascii a <? 128)%nat && is_ascii s'
  end.

(** ** Sample data *)

Module Sample.

(** A persistent ICMP monitor that waits for its host to go offline. *)
Definition web1 : MonitorDevice :=
  {| id := 1; name := "web1"; identifier := "10.0.0.5";
     port := None; proto := None; persist := true;
     monitor_trigger := "OFFLINE";
     monitor_start_utc := "00:00"; monitor_end_utc := "23:59";
     requested_by := "ops"; notify := "ops@example.org"; comments := None;
     email_subject := "$name is down";
     email_body := "$name ($identifier) went $trigger, asked by $requested_by";
     been_notified := false |}.

(** A one-shot TCP monitor that waits, during office hours, for its
    service to come online. *)
Definition printer : MonitorDevice :=
  {| id := 2; name := "printer"; identifier := "10.0.0.9";
     port := Some 9100; proto := Some "TCP"; persist := false;
     monitor_trigger := "ONLINE";
     monitor_start_utc := "08:00"; monitor_end_utc := "17:00";
     requested_by := "it"; notify := "it@example.org";
     comments := Some "second floor";
     email_subject := "$name:$port is up";
     email_body := "$comments $unknown";
     been_notified := false |}.

Definition config : gmap string string :=
  list_to_map [("SENDER_EMAIL", "ping@example.org");
               ("REPLY_TO_EMAIL", "noreply@example.org");
               ("SMTP_SERVER", "mail.example.org")].

(** Every process exits with [returncode]; the mail server works. *)
Definition env_exit (returncode : Z) : environment :=
  {| subprocess_run := λ _, Some returncode;
     smtp_connect := λ _, true;
     smtp_send_message := λ _, true;
     smtp_quit := true |}.

(** The mail server answers but refuses every message. *)
Definition env_mail_refused : environment :=
  {| subprocess_run := λ _, Some 1;
     smtp_connect := λ _, true;
     smtp_send_message := λ _, false;
     smtp_quit := true |}.

Definition world0 : world :=
  {| db := [web1; printer]; smtp_calls := []; delivered := [] |}.

Definition web1_alert : email :=
  {| To := "ops@example.org"; From := "ping@example.org";
     reply_to := "noreply@example.org";
     Subject := "[Ping] web1 is down";
     body := "web1 (10.0.0.5) went OFFLINE, asked by ops" |}.

Definition web1_restored : email :=
  {| To := "ops@example.org"; From := "ping@example.org";
     reply_to := "noreply@example.org";
     Subject := "[Ping] web1 is now ONLINE";
     body := "web1 is now back ONLINE." |}.

(** A monitor whose window runs over midnight. *)
Definition night_watch : MonitorDevice :=
  {| id := 4; name := "backup"; identifier := "10.0.0.20";
     port := None; proto := None; persist := true;
     monitor_trigger := "OFFLINE";
     monitor_start_utc := "22:00"; monitor_end_utc := "02:00";
     requested_by := "ops"; notify := "ops@example.org"; comments := None;
     email_subject := "$name is down"; email_body := "$name is down";
     been_notified := false |}.

(** A monitor whose window start is not a time. *)
Definition bad_window : MonitorDevice :=
  {| id := 5; name := "nas"; identifier := "10.0.0.21";
     port := None; proto := None; persist := true;
     monitor_trigger := "OFFLINE";
     monitor_start_utc := "8am"; monitor_end_utc := "17:00";
     requested_by := "ops"; notify := "ops@example.org"; comments := None;
     email_subject := "$name is down"; email_body := "$name is down";
     been_notified := false |}.

(** A monitor whose trigger is written in lower case. *)
Definition lower_case : MonitorDevice :=
  {| id := 6; name := "gw"; identifier := "10.0.0.1";
     port := None; proto := None; persist := true;
     monitor_trigger := "offline";
     monitor_start_utc := "00:00"; monitor_end_utc := "23:59";
     requested_by := "ops"; notify := "ops@example.org"; comments := None;
     email_subject := "$name is down"; email_body := "$name is down";
     been_notified := false |}.

(** [subprocess.run] raises; the mail server works. *)
Definition env_no_process : environment :=
  {| subprocess_run := λ _, None;
     smtp_connect := λ _, true;
     smtp_send_message := λ _, true;
     smtp_quit := true |}.

(** The mail server cannot be reached. *)
Definition env_mail_down : environment :=
  {| subprocess_run := λ _, Some 1;
     smtp_connect := λ _, false;
     smtp_send_message := λ _, true;
     smtp_quit := true |}.

Definition world_of (rows : list MonitorDevice) : world :=
  {| db := rows; smtp_calls := []; delivered := [] |}.

End Sample.

(** ** Facts about the store *)

Section Store.

Implicit Types (rows : list MonitorDevice) (devices : gmap Z MonitorDevice).

Lemma foldl_insert_lookup rows devices k d :
  foldl (λ devices device, <[id device := device]> devices) devices rows !! k = Some d →
  (d ∈ rows ∧ id d = k) ∨ devices !! k = Some d.
Proof.
  revert devices. induction rows as [|r rows IH]; intros devices; simpl.
  - by right.
  - intros H. apply IH in H as [[Hin Hid]|H].
    + left. split; [by right | done].
    + destruct (decide (id r = k)) as [<-|Hne].
      * rewrite lookup_insert_eq in H. injection H as <-. left. split; [by left | done].
      * rewrite lookup_insert_ne in H by done. by right.
Qed.

Lemma by_id_lookup rows k d :
  MonitorService.by_id rows !! k = Some d → d ∈ rows ∧ id d = k.
Proof.
  intros H. apply foldl_insert_lookup in H as [H|H]; [done|].
  by rewrite lookup_empty in H.
Qed.

Lemma get_devices_lookup db k d :
  MonitorService.get_devices [] db !! k = Some d → d ∈ db ∧ id d = k.
Proof. apply by_id_lookup. Qed.

Lemma id_overwrite device row : id (DatabaseService.overwrite device row) = id row.
Proof. unfold DatabaseService.overwrite. destruct (Z.eqb_spec (id row) (id device)); congruence. Qed.

Lemma foldl_insert_overwrite_ne device rows devices1 devices2 k :
  k ≠ id device →
  devices1 !! k = devices2 !! k →
  foldl (λ devices device, <[id device := device]> devices) devices1
        (DatabaseService.overwrite device <$> rows) !! k
  = foldl (λ devices device, <[id device := device]> devices) devices2 rows !! k.
Proof.
  intros Hk. revert devices1 devices2.
  induction rows as [|r rows IH]; intros devices1 devices2 Hm; simpl; [done|].
  apply IH. rewrite id_overwrite.
  destruct (decide (id r = k)) as [<-|Hne].
  - rewrite !lookup_insert_eq. unfold DatabaseService.overwrite.
    destruct (Z.eqb_spec (id r) (id device)); congruence.
  - by rewrite !lookup_insert_ne.
Qed.

Lemma foldl_insert_overwrite_eq device rows devices :
  (∃ r, r ∈ rows ∧ id r = id device) ∨ devices !! id device = Some device →
  foldl (λ devices device, <[id device := device]> devices) devices
        (DatabaseService.overwrite device <$> rows) !! id device = Some device.
Proof.
  revert devices. induction rows as [|r rows IH]; intros devices H; simpl.
  - destruct H as [(r & Hr & _)|H]; [by apply elem_of_nil in Hr | done].
  - apply IH. rewrite id_overwrite. unfold DatabaseService.overwrite.
    destruct (Z.eqb_spec (id r) (id device)) as [Heq|Hne].
    + right. rewrite Heq. apply lookup_insert_eq.
    + destruct H as [(r' & Hr' & Hid)|H].
      * apply elem_of_cons in Hr' as [->|Hr']; [done|]. left. eauto.
      * right. by rewrite lookup_insert_ne.
Qed.

Lemma merge_present device rows :
  (∃ r, r ∈ rows ∧ id r = id device) →
  DatabaseService.merge device rows = DatabaseService.overwrite device <$> rows.
Proof.
  intros (r & Hr & Hid). unfold DatabaseService.merge.
  replace (existsb (λ row, id row =? id device) rows) with true; [done|].
  symmetry. apply existsb_exists. exists r. split.
  - by apply list_elem_of_In.
  - by apply Z.eqb_eq.
Qed.

Lemma by_id_merge_eq device rows :
  (∃ r, r ∈ rows ∧ id r = id device) →
  MonitorService.by_id (DatabaseService.merge device rows) !! id device = Some device.
Proof.
  intros H. rewrite merge_present by done.
  apply foldl_insert_overwrite_eq. by left.
Qed.

Lemma by_id_merge_ne device rows k :
  (∃ r, r ∈ rows ∧ id r = id device) →
  k ≠ id device →
  MonitorService.by_id (DatabaseService.merge device rows) !! k
  = MonitorService.by_id rows !! k.
Proof.
  intros H Hk. rewrite merge_present by done.
  by apply foldl_insert_overwrite_ne.
Qed.

(** With [id] a key of the table, the dictionary holds every row. *)
Lemma foldl_insert_fresh rows devices k :
  k ∉ id <$> rows →
  foldl (λ devices device, <[id device := device]> devices) devices rows !! k
  = devices !! k.
Proof.
  revert devices. induction rows as [|r rows IH]; intros devices Hk; simpl; [done|].
  rewrite fmap_cons in Hk. apply not_elem_of_cons in Hk as [Hne Hk].
  rewrite IH by done. by rewrite lookup_insert_ne.
Qed.

Lemma by_id_NoDup rows d :
  NoDup (id <$> rows) → d ∈ rows → MonitorService.by_id rows !! id d = Some d.
Proof.
  unfold MonitorService.by_id. generalize (∅ : gmap Z MonitorDevice).
  induction rows as [|r rows IH]; intros devices Hnd Hd; simpl.
  - by apply elem_of_nil in Hd.
  - rewrite fmap_cons in Hnd. apply NoDup_cons in Hnd as [Hr Hnd].
    apply elem_of_cons in Hd as [->|Hd].
    + rewrite foldl_insert_fresh by done. apply lookup_insert_eq.
    + by apply IH.
Qed.

Lemma NoDup_id_inj rows r d :
  NoDup (id <$> rows) → r ∈ rows → d ∈ rows → id r = id d → r = d.
Proof.
  intros Hnd Hr Hd Hid.
  pose proof (by_id_NoDup rows r Hnd Hr) as H1.
  pose proof (by_id_NoDup rows d Hnd Hd) as H2.
  rewrite Hid in H1. congruence.
Qed.

End Store.

(** ** Facts about the evaluator *)

Ltac result_simpl :=
  unfold mbind, mret, result_bind, result_ret, Py.bind in *; simpl in *.

Section Evaluator.

Variables (device : MonitorDevice) (can_connect : bool).

Lemma decision_window window_start window_end now_hour now_minute :
  window_of device window_start window_end →
  notification_decision device can_connect now_hour now_minute
  = Py.Return
      (if (window_start <=? now_hour * 100 + now_minute)
          && (now_hour * 100 + now_minute <=? window_end)
       then trigger_criteria device can_connect else NO_OP).
Proof.
  intros [Hs He]. unfold notification_decision, int_or_raise.
  rewrite Hs, He. result_simpl. rewrite Z.geb_leb.
  by destruct (_ && _).
Qed.

Lemma decision_NOTIFY_criteria now_hour now_minute s b :
  notification_decision device can_connect now_hour now_minute = Py.Return (NOTIFY s b) →
  trigger_criteria device can_connect = NOTIFY s b.
Proof.
  unfold notification_decision, int_or_raise.
  destruct (Py.int _), (Py.int _); result_simpl; try done.
  destruct (_ && _); congruence.
Qed.

Lemma matches_trigger_test :
  matches_trigger device can_connect →
  (can_connect && String.eqb (monitor_trigger device) "ONLINE")
  || (negb can_connect && String.eqb (monitor_trigger device) "OFFLINE") = true.
Proof. by intros [[-> ->]|[-> ->]]. Qed.

Lemma opposes_trigger_test :
  opposes_trigger device can_connect →
  (can_connect && String.eqb (monitor_trigger device) "OFFLINE")
  || (negb can_connect && String.eqb (monitor_trigger device) "ONLINE") = true.
Proof. by intros [[-> ->]|[-> ->]]. Qed.

Lemma opposes_not_matches :
  opposes_trigger device can_connect →
  (can_connect && String.eqb (monitor_trigger device) "ONLINE")
  || (negb can_connect && String.eqb (monitor_trigger device) "OFFLINE") = false.
Proof. by intros [[-> ->]|[-> ->]]. Qed.

Lemma matches_not_opposes :
  matches_trigger device can_connect →
  (can_connect && String.eqb (monitor_trigger device) "OFFLINE")
  || (negb can_connect && String.eqb (monitor_trigger device) "ONLINE") = false.
Proof. by intros [[-> ->]|[-> ->]]. Qed.

Lemma criteria_forward :
  matches_trigger device can_connect →
  been_notified device = false →
  trigger_criteria device can_connect
  = NOTIFY ("[Ping] " +:+ format_message device (email_subject device))
           (format_message device (email_body device)).
Proof.
  intros Hm Hn. unfold trigger_criteria.
  by rewrite matches_trigger_test, Hn.
Qed.

Lemma criteria_reverse :
  opposes_trigger device can_connect →
  persist device = true →
  been_notified device = true →
  trigger_criteria device can_connect
  = NOTIFY ("[Ping] " +:+ name device +:+ " is now " +:+ state_name can_connect)
           (name device +:+ " is now back " +:+ state_name can_connect +:+ ".").
Proof.
  intros Ho Hp Hn. unfold trigger_criteria.
  by rewrite opposes_not_matches, opposes_trigger_test, Hp, Hn.
Qed.

Lemma criteria_sustained :
  matches_trigger device can_connect →
  been_notified device = true →
  trigger_criteria device can_connect = NO_OP.
Proof.
  intros Hm Hn. unfold trigger_criteria.
  rewrite matches_not_opposes, Hn by done.
  by rewrite !andb_false_r.
Qed.

Lemma criteria_transient_opposite :
  opposes_trigger device can_connect →
  persist device = false →
  trigger_criteria device can_connect = NO_OP.
Proof.
  intros Ho Hp. unfold trigger_criteria.
  by rewrite opposes_not_matches, Hp.
Qed.

(** A message is built only when the flag is about to be flipped. *)
Lemma criteria_NOTIFY_flag s b :
  trigger_criteria device can_connect = NOTIFY s b →
  (if persist device && been_notified device
   then set_been_notified false device
   else set_been_notified true device)
  = set_been_notified (negb (been_notified device)) device.
Proof.
  unfold trigger_criteria.
  destruct (been_notified device), (persist device); simpl; try done.
  by rewrite andb_false_r.
Qed.

End Evaluator.

(** ** Facts about [process_notification] *)

Section Notifier.

Variables (config : gmap string string) (env : environment).
Variables (w : world) (device_id : Z) (device : MonitorDevice).
Hypothesis Hdevice : MonitorService.get_devices [] (db w) !! device_id = Some device.

Lemma process_NO_OP can_connect now_hour now_minute :
  notification_decision device can_connect now_hour now_minute = Py.Return NO_OP →
  process_notification config env now_hour now_minute (device_id, Some can_connect) w
  = (w, Py.Return ()).
Proof using Hdevice. intros H. unfold process_notification. by rewrite Hdevice, H. Qed.

Lemma process_NOTIFY can_connect now_hour now_minute s b :
  notification_decision device can_connect now_hour now_minute = Py.Return (NOTIFY s b) →
  process_notification config env now_hour now_minute (device_id, Some can_connect) w
  = send_notification config env device s b w.
Proof using Hdevice. intros H. unfold process_notification. by rewrite Hdevice, H. Qed.

Lemma process_Raise can_connect now_hour now_minute e :
  notification_decision device can_connect now_hour now_minute = Py.Raise e →
  process_notification config env now_hour now_minute (device_id, Some can_connect) w
  = (w, Py.Raise e).
Proof using Hdevice. intros H. unfold process_notification. by rewrite Hdevice, H. Qed.

(** The table after [update_devices([device'])] for a changed copy of the
    device that was read. *)
Lemma lookup_update_devices device' :
  id device' = id device →
  MonitorService.get_devices []
    (MonitorService.update_devices [device'] (db w)) !! device_id = Some device'.
Proof using Hdevice.
  intros Hid. apply get_devices_lookup in Hdevice as [Hin <-].
  rewrite <- Hid. apply by_id_merge_eq. eauto.
Qed.

End Notifier.

Lemma send_delivers config env device s b w sender_email reply_to_email :
  let msg := {| To := notify device; From := sender_email; reply_to := reply_to_email;
                Subject := s; body := b |} in
  delivers config env msg →
  let w' := (send_notification config env device s b w).1 in
  db w' = MonitorService.update_devices
            [if persist device && been_notified device
             then set_been_notified false device
             else set_been_notified true device] (db w)
  ∧ delivered w' = delivered w ++ [msg].
Proof.
  intros msg (Hs & Hr & server & Hsrv & Hc & Hm). simpl in Hs, Hr.
  unfold send_notification. rewrite Hs, Hr, Hsrv, Hc. fold msg. by rewrite Hm.
Qed.

Lemma snoc_neq {A} (l : list A) (x : A) : l ++ [x] ≠ l.
Proof.
  intros H. apply (f_equal length) in H. rewrite length_app in H. simpl in H. lia.
Qed.

Lemma send_undelivered config env device s b w :
  delivered (send_notification config env device s b w).1 = delivered w →
  db (send_notification config env device s b w).1 = db w.
Proof.
  unfold send_notification.
  destruct (config !! "SENDER_EMAIL"); [|done].
  destruct (config !! "REPLY_TO_EMAIL"); [|done].
  destruct (config !! "SMTP_SERVER"); [|done].
  destruct (smtp_connect env _); [|done].
  destruct (smtp_send_message env _); [|done].
  simpl. intros H. by apply snoc_neq in H.
Qed.

Lemma decision_forward device can_connect window_start window_end now_hour now_minute :
  window_of device window_start window_end →
  window_start ≤ now_hour * 100 + now_minute ≤ window_end →
  matches_trigger device can_connect →
  been_notified device = false →
  notification_decision device can_connect now_hour now_minute
  = Py.Return (NOTIFY ("[Ping] " +:+ format_message device (email_subject device))
                      (format_message device (email_body device))).
Proof.
  intros Hwin Hnow Hmatch Hflag.
  rewrite (decision_window _ _ _ _ _ _ Hwin).
  replace (_ && _) with true by (symmetry; apply andb_true_iff; lia).
  by rewrite criteria_forward.
Qed.

Lemma forward_delivery config env w device_id device can_connect
    window_start window_end now_hour now_minute sender_email reply_to_email :
  MonitorService.get_devices [] (db w) !! device_id = Some device →
  window_of device window_start window_end →
  window_start ≤ now_hour * 100 + now_minute ≤ window_end →
  matches_trigger device can_connect →
  been_notified device = false →
  let msg := {| To := notify device; From := sender_email; reply_to := reply_to_email;
                Subject := "[Ping] " +:+ format_message device (email_subject device);
                body := format_message device (email_body device) |} in
  let w' := (process_notification config env now_hour now_minute
               (device_id, Some can_connect) w).1 in
  delivers config env msg →
  MonitorService.get_devices [] (db w') !! device_id = Some (set_been_notified true device)
  ∧ delivered w' = delivered w ++ [msg].
Proof.
  intros Hdev Hwin Hnow Hmatch Hflag msg w' Hdel. subst w'.
  rewrite (process_NOTIFY _ _ _ _ _ Hdev _ _ _ _ _
             (decision_forward _ _ _ _ _ _ Hwin Hnow Hmatch Hflag)).
  destruct (send_delivers _ _ device _ _ w _ _ Hdel) as [Hdb Hsent].
  rewrite Hflag, andb_false_r in Hdb. split; [|done].
  rewrite Hdb. by apply (lookup_update_devices _ _ _ Hdev).
Qed.

(** ** Properties of the engine *)


Lemma delivers_sample returncode msg :
  From msg = "ping@example.org" →
  reply_to msg = "noreply@example.org" →
  delivers Sample.config (Sample.env_exit returncode) msg.
Proof.
  intros Hfrom Hreply. unfold delivers. rewrite Hfrom, Hreply.
  split; [reflexivity|]. split; [reflexivity|].
  exists "mail.example.org". repeat split; reflexivity.
Qed.


(** C4 (outside the window). When the hhmm value of the clock is below the
    start or above the end of the window, the evaluator decides NO_OP whatever
    the probe result and the flag are: the task returns, no SMTP call is
    made, nothing is delivered and the table is the one it read. *)
Theorem outside_window_no_op config env w device_id device can_connect
    window_start window_end now_hour now_minute :
  MonitorService.get_devices [] (db w) !! device_id = Some device →
  window_of device window_start window_end →
  now_hour * 100 + now_minute < window_start ∨ window_end < now_hour * 100 + now_minute →
  notification_decision device can_connect now_hour now_minute = Py.Return NO_OP
  ∧ process_notification config env now_hour now_minute (device_id, Some can_connect) w
    = (w, Py.Return ()).
Proof.
  intros Hdev Hwin Hnow.
  assert (notification_decision device can_connect now_hour now_minute
          = Py.Return NO_OP) as Hdec.
  { rewrite (decision_window _ _ _ _ _ _ Hwin).
    replace (_ && _) with false; [done|].
    symmetry. apply andb_false_iff. lia. }
  split; [done|]. by apply (process_NO_OP _ _ _ _ _ Hdev).
Qed.

Lemma outside_window_no_op_witness :
  notification_decision Sample.printer true 17 1 = Py.Return NO_OP
  ∧ process_notification Sample.config (Sample.env_exit 0) 17 1 (2, Some true) Sample.world0
    = (Sample.world0, Py.Return ()).
Proof.
  apply (outside_window_no_op Sample.config (Sample.env_exit 0) Sample.world0 2
           Sample.printer true 800 1700 17 1).
  - reflexivity.
  - split; reflexivity.
  - right. lia.
Defined.

(** C5 (reverse edge). Inside the window, with a probe result opposite to the
    trigger: a persistent device that has notified gets a NOTIFY whose texts
    are built from its name and the new state, not from its templates, and a
    successful delivery stores it with [been_notified = false]; a device that
    is not persistent gets NO_OP and the task changes nothing. *)
Theorem reverse_edge config env w device_id device can_connect
    window_start window_end now_hour now_minute sender_email reply_to_email :
  MonitorService.get_devices [] (db w) !! device_id = Some device →
  window_of device window_start window_end →
  window_start ≤ now_hour * 100 + now_minute ≤ window_end →
  opposes_trigger device can_connect →
  let email_subject_text :=
    "[Ping] " +:+ name device +:+ " is now " +:+ state_name can_connect in
  let email_body_text :=
    name device +:+ " is now back " +:+ state_name can_connect +:+ "." in
  let msg := {| To := notify device; From := sender_email; reply_to := reply_to_email;
                Subject := email_subject_text; body := email_body_text |} in
  let outcome := process_notification config env now_hour now_minute
                   (device_id, Some can_connect) w in
  (persist device = true → been_notified device = true →
   notification_decision device can_connect now_hour now_minute
   = Py.Return (NOTIFY email_subject_text email_body_text)
   ∧ (delivers config env msg →
      MonitorService.get_devices [] (db outcome.1) !! device_id
      = Some (set_been_notified false device)
      ∧ delivered outcome.1 = delivered w ++ [msg]))
  ∧ (persist device = false →
     notification_decision device can_connect now_hour now_minute = Py.Return NO_OP
     ∧ outcome = (w, Py.Return ())).
Proof.
  intros Hdev Hwin Hnow Hopp subject text msg outcome.
  pose proof (decision_window device can_connect _ _ now_hour now_minute Hwin) as Hdec.
  replace (_ && _) with true in Hdec by (symmetry; apply andb_true_iff; lia).
  split.
  - intros Hpersist Hflag. rewrite criteria_reverse in Hdec by done.
    fold subject text in Hdec.
    split; [done|]. intros Hdel. subst outcome.
    rewrite (process_NOTIFY _ _ _ _ _ Hdev _ _ _ _ _ Hdec).
    destruct (send_delivers _ _ device subject text w _ _ Hdel) as [Hdb Hsent].
    rewrite Hpersist, Hflag in Hdb. simpl in Hdb. split; [|done].
    rewrite Hdb. by apply (lookup_update_devices _ _ _ Hdev).
  - intros Hpersist. rewrite criteria_transient_opposite in Hdec by done.
    split; [done|]. by apply (process_NO_OP _ _ _ _ _ Hdev).
Qed.

Lemma reverse_edge_witness :
  let notified := {| db := [set_been_notified true Sample.web1; Sample.printer];
                     smtp_calls := []; delivered := [] |} in
  let outcome := process_notification Sample.config (Sample.env_exit 0) 9 30
                   (1, Some true) notified in
  (notification_decision (set_been_notified true Sample.web1) true 9 30
   = Py.Return (NOTIFY "[Ping] web1 is now ONLINE" "web1 is now back ONLINE.")
   ∧ MonitorService.get_devices [] (db outcome.1) !! 1 = Some Sample.web1
   ∧ delivered outcome.1 = [Sample.web1_restored])
  ∧ (notification_decision Sample.printer false 9 30 = Py.Return NO_OP
     ∧ process_notification Sample.config (Sample.env_exit 1) 9 30
         (2, Some false) Sample.world0 = (Sample.world0, Py.Return ())).
Proof.
  split.
  - destruct (reverse_edge Sample.config (Sample.env_exit 0)
                {| db := [set_been_notified true Sample.web1; Sample.printer];
                   smtp_calls := []; delivered := [] |}
                1 (set_been_notified true Sample.web1) true 0 2359 9 30
                "ping@example.org" "noreply@example.org")
      as [Hpersistent _].
    + reflexivity.
    + split; reflexivity.
    + lia.
    + left. split; reflexivity.
    + destruct Hpersistent as [Hdecision Hdelivery]; [reflexivity..|].
      split; [exact Hdecision|].
      apply Hdelivery. by apply delivers_sample.
  - destruct (reverse_edge Sample.config (Sample.env_exit 1) Sample.world0
                2 Sample.printer false 800 1700 9 30
                "ping@example.org" "noreply@example.org")
      as [_ Htransient].
    + reflexivity.
    + split; reflexivity.
    + lia.
    + right. split; reflexivity.
    + apply Htransient. reflexivity.
Defined.

(** C6 (delivery failure). When the evaluation decides NOTIFY and the task
    ends without the message having been delivered, the table is the one the
    task read: the flag is not changed and nothing is written, so the same
    evaluation on the resulting world decides NOTIFY again. *)
Theorem delivery_failure_keeps_flag config env w device_id device can_connect
    now_hour now_minute email_subject_text email_body_text :
  MonitorService.get_devices [] (db w) !! device_id = Some device →
  notification_decision device can_connect now_hour now_minute
  = Py.Return (NOTIFY email_subject_text email_body_text) →
  let w' := (process_notification config env now_hour now_minute
               (device_id, Some can_connect) w).1 in
  delivered w' = delivered w →
  db w' = db w
  ∧ MonitorService.get_devices [] (db w') !! device_id = Some device
  ∧ decides_NOTIFY w' device_id can_connect now_hour now_minute.
Proof.
  intros Hdev Hdec w' Hundelivered. subst w'.
  rewrite (process_NOTIFY _ _ _ _ _ Hdev _ _ _ _ _ Hdec) in *.
  apply send_undelivered in Hundelivered.
  rewrite Hundelivered. split; [done|]. split; [done|].
  exists device, email_subject_text, email_body_text.
  by rewrite Hundelivered.
Qed.

Lemma delivery_failure_keeps_flag_witness :
  let w' := (process_notification Sample.config Sample.env_mail_refused 3 15
               (1, Some false) Sample.world0).1 in
  db w' = db Sample.world0
  ∧ MonitorService.get_devices [] (db w') !! 1 = Some Sample.web1
  ∧ decides_NOTIFY w' 1 false 3 15.
Proof.
  apply (delivery_failure_keeps_flag Sample.config Sample.env_mail_refused Sample.world0
           1 Sample.web1 false 3 15
           "[Ping] web1 is down" "web1 (10.0.0.5) went OFFLINE, asked by ops").
  - reflexivity.
  - reflexivity.
  - reflexivity.
Defined.

(** C3, as stated, fails: two NOTIFY decisions in a row for the same state.
    The mail server refuses the message of the first cycle, the flag stays
    false, and the next cycle, with the same probe result, decides NOTIFY
    again although no reverse edge came between the two. *)
Lemma notify_again_after_refused_message :
  ¬ (∀ config env w device_id device can_connect now_hour now_minute now_hour' now_minute',
       MonitorService.get_devices [] (db w) !! device_id = Some device →
       matches_trigger device can_connect →
       decides_NOTIFY w device_id can_connect now_hour now_minute →
       ¬ decides_NOTIFY
           (process_notification config env now_hour now_minute
              (device_id, Some can_connect) w).1
           device_id can_connect now_hour' now_minute').
Proof.
  intros Hclaim.
  apply (Hclaim Sample.config Sample.env_mail_refused Sample.world0 1 Sample.web1
           false 3 15 3 16).
  - reflexivity.
  - right. split; reflexivity.
  - exists Sample.web1, "[Ping] web1 is down",
      "web1 (10.0.0.5) went OFFLINE, asked by ops". split; reflexivity.
  - exists Sample.web1, "[Ping] web1 is down",
      "web1 (10.0.0.5) went OFFLINE, asked by ops". split; reflexivity.
Qed.

Lemma window_of_set_been_notified b device window_start window_end :
  window_of device window_start window_end →
  window_of (set_been_notified b device) window_start window_end.
Proof. done. Qed.

Lemma matches_trigger_set_been_notified b device can_connect :
  matches_trigger device can_connect →
  matches_trigger (set_been_notified b device) can_connect.
Proof. done. Qed.

(** C3, amended (edge-triggered). After a forward edge whose delivery
    succeeded, every later evaluation with the same probe result, at any time
    and in any environment, does not decide NOTIFY: the task returns without
    an SMTP call, a delivery or a write, however many cycles follow. *)
Theorem no_second_notify_after_delivery config env w device_id device can_connect
    window_start window_end now_hour now_minute sender_email reply_to_email :
  MonitorService.get_devices [] (db w) !! device_id = Some device →
  window_of device window_start window_end →
  window_start ≤ now_hour * 100 + now_minute ≤ window_end →
  matches_trigger device can_connect →
  been_notified device = false →
  delivers config env
    {| To := notify device; From := sender_email; reply_to := reply_to_email;
       Subject := "[Ping] " +:+ format_message device (email_subject device);
       body := format_message device (email_body device) |} →
  let w1 := (process_notification config env now_hour now_minute
               (device_id, Some can_connect) w).1 in
  (∀ now_hour' now_minute', ¬ decides_NOTIFY w1 device_id can_connect now_hour' now_minute')
  ∧ (∀ env' now_hour' now_minute',
       process_notification config env' now_hour' now_minute'
         (device_id, Some can_connect) w1 = (w1, Py.Return ()))
  ∧ (∀ cycles, evaluations config device_id can_connect cycles w1 = w1).
Proof.
  intros Hdev Hwin Hnow Hmatch Hflag Hdel w1.
  destruct (forward_delivery config env w device_id device can_connect window_start
              window_end now_hour now_minute sender_email reply_to_email
              Hdev Hwin Hnow Hmatch Hflag Hdel) as [Hdev1 _].
  fold w1 in Hdev1.
  assert (∀ now_hour' now_minute',
            notification_decision (set_been_notified true device) can_connect
              now_hour' now_minute' = Py.Return NO_OP) as Hquiet.
  { intros h' m'.
    rewrite (decision_window _ _ window_start window_end) by done.
    rewrite criteria_sustained by done. by destruct (_ && _). }
  assert (∀ env' now_hour' now_minute',
            process_notification config env' now_hour' now_minute'
              (device_id, Some can_connect) w1 = (w1, Py.Return ())) as Hstep.
  { intros env' h' m'. by apply (process_NO_OP _ _ _ _ _ Hdev1). }
  split; [|split; [done|]].
  - intros h' m' (device1 & s & b & Hdev1' & Hdec).
    rewrite Hdev1 in Hdev1'. injection Hdev1' as <-.
    by rewrite Hquiet in Hdec.
  - intros cycles. unfold evaluations.
    induction cycles as [|[[env' h'] m'] cycles IH]; [done|].
    cbn [foldl]. by rewrite Hstep.
Qed.

Lemma no_second_notify_after_delivery_witness :
  let w1 := (process_notification Sample.config (Sample.env_exit 1) 3 15
               (1, Some false) Sample.world0).1 in
  (∀ now_hour' now_minute', ¬ decides_NOTIFY w1 1 false now_hour' now_minute')
  ∧ (∀ env' now_hour' now_minute',
       process_notification Sample.config env' now_hour' now_minute' (1, Some false) w1
       = (w1, Py.Return ()))
  ∧ (∀ cycles, evaluations Sample.config 1 false cycles w1 = w1).
Proof.
  apply (no_second_notify_after_delivery Sample.config (Sample.env_exit 1)
           Sample.world0 1 Sample.web1 false 0 2359 3 15
           "ping@example.org" "noreply@example.org").
  - reflexivity.
  - split; reflexivity.
  - lia.
  - right. split; reflexivity.
  - reflexivity.
  - by apply delivers_sample.
Defined.

(** ** The probe *)

(** A port that is set is an integer: it matches none of the cases. *)
Lemma can_connect_port_set env db device_id device p :
  MonitorService.get_devices [] db !! device_id = Some device →
  port device = Some p →
  can_connect env db device_id = Py.Return (device_id, None).
Proof. intros Hdev Hport. unfold can_connect. by rewrite Hdev, Hport. Qed.

(** C2: the probe of a TCP device with a port. [can_connect] matches on
    [device.port], an integer that equals neither "TCP" nor "UDP", so the
    wildcard case raises and the task answers UNKNOWN, although every
    process, [nc] included, would exit with 0. *)
Example tcp_probe_is_unknown :
  proto Sample.printer = Some "TCP"
  ∧ port Sample.printer = Some 9100
  ∧ can_connect (Sample.env_exit 0) (db Sample.world0) 2 = Py.Return (2, None).
Proof.
  split; [reflexivity|]. split; [reflexivity|].
  by apply (can_connect_port_set _ _ _ Sample.printer 9100).
Qed.

(** C7, as stated, fails: a device id that is not in the table makes
    [can_connect] raise [ValueError] into its caller. *)
Lemma can_connect_raises_on_missing_device :
  ¬ (∀ env db device_id, ∃ r, can_connect env db device_id = Py.Return r).
Proof.
  intros Hclaim.
  destruct (Hclaim (Sample.env_exit 0) (db Sample.world0) 7) as [r Hr].
  discriminate Hr.
Qed.

(** C7, amended. For a device id that is in the table the probe does not
    raise: it returns the id with a result, and the result is UNKNOWN
    ([None]) when the [subprocess.run] of its [ping] raises and when the
    matched value is none of [None], ["TCP"] and ["UDP"]. For a device id
    that is not in the table it raises [ValueError]. *)
Theorem can_connect_returns env db device_id :
  (MonitorService.get_devices [] db !! device_id = None →
   can_connect env db device_id = Py.Raise Py.ValueError)
  ∧ (∀ device,
       MonitorService.get_devices [] db !! device_id = Some device →
       ∃ r, can_connect env db device_id = Py.Return (device_id, r)
            ∧ (port device = None →
               subprocess_run env [Str "/bin/ping"; Str "-W"; Str "1"; Str "-c";
                                   Str "3"; Str (identifier device)] = None →
               r = None)
            ∧ (∀ p, port device = Some p →
                    Py.int_eq_str p "TCP" = false → Py.int_eq_str p "UDP" = false →
                    r = None)).
Proof.
  split.
  - intros Hmissing. unfold can_connect. by rewrite Hmissing.
  - intros device Hdev. unfold can_connect, run. rewrite Hdev.
    destruct (port device) as [p|] eqn:Hport; simpl.
    + exists None. done.
    + destruct (subprocess_run env _) as [returncode|] eqn:Hrun.
      * eexists. split; [done|]. split; [|done]. by intros _ Hraise.
      * exists None. done.
Qed.

Lemma can_connect_returns_witness :
  can_connect (Sample.env_exit 0) (db Sample.world0) 7 = Py.Raise Py.ValueError
  ∧ can_connect Sample.env_no_process (db Sample.world0) 1 = Py.Return (1, None)
  ∧ can_connect (Sample.env_exit 0) (db Sample.world0) 2 = Py.Return (2, None).
Proof.
  split; [|split].
  - apply (can_connect_returns (Sample.env_exit 0) (db Sample.world0) 7).
    reflexivity.
  - destruct (can_connect_returns Sample.env_no_process (db Sample.world0) 1)
      as [_ Hpresent].
    destruct (Hpresent Sample.web1 eq_refl) as (r & Hreturn & Hlaunch & _).
    rewrite Hreturn. by rewrite (Hlaunch eq_refl eq_refl).
  - destruct (can_connect_returns (Sample.env_exit 0) (db Sample.world0) 2)
      as [_ Hpresent].
    destruct (Hpresent Sample.printer eq_refl) as (r & Hreturn & _ & Hunmatched).
    rewrite Hreturn. by rewrite (Hunmatched 9100 eq_refl eq_refl eq_refl).
Defined.

(** ** Cleanup *)

Lemma filter_ext_elem {A} (P Q : A → Prop)
    `{!∀ x, Decision (P x), !∀ x, Decision (Q x)} (l : list A) :
  (∀ x, x ∈ l → P x ↔ Q x) → filter P l = filter Q l.
Proof.
  induction l as [|a l IH]; intros Hext; [done|].
  assert (filter P l = filter Q l) as Hl.
  { apply IH. intros x Hx. apply Hext. by right. }
  assert (P a ↔ Q a) as Ha by (apply Hext; by left).
  destruct (decide (P a)) as [HP|HP].
  - rewrite !filter_cons_True by tauto. by rewrite Hl.
  - rewrite !filter_cons_False by tauto. done.
Qed.

Lemma filter_all {A} (P : A → Prop) `{!∀ x, Decision (P x)} (l : list A) :
  (∀ x, x ∈ l → P x) → filter P l = l.
Proof.
  induction l as [|a l IH]; intros Hall; [done|].
  rewrite filter_cons_True by (apply Hall; by left).
  f_equal. apply IH. intros x Hx. apply Hall. by right.
Qed.

Lemma pending_removal db device :
  NoDup (id <$> db) → device ∈ db →
  id device ∈ (filter (λ item, should_cleanup item.2 = true)
                 (map_to_list (MonitorService.get_devices [] db))).*1
  ↔ should_cleanup device = true.
Proof.
  intros Hnd Hin. pose proof (by_id_NoDup db device Hnd Hin) as Hlookup.
  rewrite list_elem_of_fmap. split.
  - intros ([k d] & Hk & Hitem). simpl in Hk. subst k.
    apply list_elem_of_filter in Hitem as [Hclean Hitem]. simpl in Hclean.
    apply elem_of_map_to_list in Hitem.
    unfold MonitorService.get_devices, DatabaseService.get_all_devices in Hitem.
    congruence.
  - intros Hclean. exists (id device, device). split; [done|].
    apply list_elem_of_filter. split; [done|].
    by apply elem_of_map_to_list.
Qed.

Lemma cleanup_monitor_filter db :
  NoDup (id <$> db) →
  cleanup_monitor db = filter (λ device, should_cleanup device = false) db.
Proof.
  intros Hnd. unfold cleanup_monitor, MonitorService.remove_devices,
    DatabaseService.delete_devices.
  apply filter_ext_elem. intros device Hin.
  rewrite (pending_removal db device Hnd Hin).
  by destruct (should_cleanup device).
Qed.

Lemma should_cleanup_false device :
  should_cleanup device = false ↔ ¬ (persist device = false ∧ been_notified device = true).
Proof.
  unfold should_cleanup.
  destruct (been_notified device), (persist device); simpl;
    (split; [try done; by intros _ [? ?] | try done; intros Hno; by destruct Hno]).
Qed.

(** C8 (cleanup). With [id] the key of the table, cleanup keeps, in their
    order, exactly the rows that are not both transient and notified: every
    device with [persist = false] and [been_notified = true] is deleted and
    every other one, a notified persistent device included, stays; when no
    device qualifies the table is unchanged, and a second cleanup deletes
    nothing more. *)
Theorem cleanup_deletes_notified_transients db :
  NoDup (id <$> db) →
  cleanup_monitor db = filter (λ device, should_cleanup device = false) db
  ∧ (∀ device, device ∈ cleanup_monitor db
               ↔ device ∈ db ∧ ¬ (persist device = false ∧ been_notified device = true))
  ∧ (∀ device, device ∈ db → persist device = true → device ∈ cleanup_monitor db)
  ∧ ((∀ device, device ∈ db → ¬ (persist device = false ∧ been_notified device = true)) →
     cleanup_monitor db = db)
  ∧ cleanup_monitor (cleanup_monitor db) = cleanup_monitor db.
Proof.
  intros Hnd. pose proof (cleanup_monitor_filter db Hnd) as Heq.
  assert (∀ device, device ∈ cleanup_monitor db
                    ↔ device ∈ db ∧ ¬ (persist device = false ∧ been_notified device = true))
    as Hiff.
  { intros device. rewrite Heq, list_elem_of_filter, should_cleanup_false. tauto. }
  split; [done|]. split; [done|]. split; [|split].
  - intros device Hin Hpersist. apply Hiff. split; [done|].
    intros [Htransient _]. congruence.
  - intros Hnone. rewrite Heq. apply filter_all.
    intros device Hin. apply should_cleanup_false. by apply Hnone.
  - rewrite cleanup_monitor_filter.
    + rewrite Heq. rewrite list_filter_filter. apply list_filter_iff. tauto.
    + rewrite Heq. eapply sublist_NoDup; [exact Hnd|].
      apply fmap_sublist, sublist_filter.
Qed.

Lemma cleanup_deletes_notified_transients_witness :
  let db := [set_been_notified true Sample.web1; set_been_notified true Sample.printer] in
  cleanup_monitor db = [set_been_notified true Sample.web1]
  ∧ cleanup_monitor (cleanup_monitor db) = cleanup_monitor db.
Proof.
  destruct (cleanup_deletes_notified_transients
              [set_been_notified true Sample.web1; set_been_notified true Sample.printer])
    as (Hfilter & _ & _ & _ & Hagain).
  - by apply (bool_decide_unpack _).
  - split; [|exact Hagain]. rewrite Hfilter. reflexivity.
Defined.

(** ** Frame *)

Lemma send_notification_db config env device s b w :
  db (send_notification config env device s b w).1 = db w
  ∨ db (send_notification config env device s b w).1
    = MonitorService.update_devices
        [if persist device && been_notified device
         then set_been_notified false device
         else set_been_notified true device] (db w).
Proof.
  unfold send_notification.
  destruct (config !! "SENDER_EMAIL"); [|by left].
  destruct (config !! "REPLY_TO_EMAIL"); [|by left].
  destruct (config !! "SMTP_SERVER"); [|by left].
  destruct (smtp_connect env _); [|by left].
  destruct (smtp_send_message env _); [by right | by left].
Qed.

Lemma flag_only_refl device_id rows : Forall2 (flag_only device_id) rows rows.
Proof. apply Forall_Forall2_diag, Forall_forall. intros row _. by left. Qed.

Lemma flag_only_update rows device_id device :
  NoDup (id <$> rows) →
  MonitorService.get_devices [] rows !! device_id = Some device →
  Forall2 (flag_only device_id) rows
    (MonitorService.update_devices
       [set_been_notified (negb (been_notified device)) device] rows).
Proof.
  intros Hnd Hdev. apply get_devices_lookup in Hdev as [Hin Hid].
  unfold MonitorService.update_devices, DatabaseService.update_devices. simpl.
  rewrite merge_present by eauto.
  apply Forall2_fmap_r, Forall_Forall2_diag, Forall_forall.
  intros row Hrow. simpl. unfold DatabaseService.overwrite. simpl.
  destruct (Z.eqb_spec (id row) (id device)) as [Heq|Hne].
  - right. assert (row = device) as -> by by apply (NoDup_id_inj rows).
    done.
  - by left.
Qed.

Lemma process_notification_frame config env now_hour now_minute device_id r w :
  NoDup (id <$> db w) →
  Forall2 (flag_only device_id) (db w)
    (db (process_notification config env now_hour now_minute (device_id, r) w).1).
Proof.
  intros Hnd. unfold process_notification.
  destruct (MonitorService.get_devices [] (db w) !! device_id) as [device|] eqn:Hdev;
    [|apply flag_only_refl].
  destruct r as [can_connect|]; [|apply flag_only_refl].
  destruct (notification_decision device can_connect now_hour now_minute)
    as [[|s b]|e] eqn:Hdec; [apply flag_only_refl| |apply flag_only_refl].
  destruct (send_notification_db config env device s b w) as [-> | ->].
  - apply flag_only_refl.
  - apply decision_NOTIFY_criteria in Hdec.
    rewrite (criteria_NOTIFY_flag _ _ _ _ Hdec).
    by apply flag_only_update.
Qed.

(** C9 (frame). With [id] the key of the table, a probe, evaluate and notify
    workflow of one device leaves the table with the same rows in the same
    order, each of them unchanged, except that the row of that device may
    have [been_notified] flipped, its fourteen other fields being the same. *)
Theorem workflow_mutates_only_the_flag config env now_hour now_minute device_id w :
  NoDup (id <$> db w) →
  Forall2
    (λ row row',
       row' = row
       ∨ (id row = device_id
          ∧ been_notified row' = negb (been_notified row)
          ∧ id row' = id row ∧ name row' = name row
          ∧ identifier row' = identifier row ∧ port row' = port row
          ∧ proto row' = proto row ∧ persist row' = persist row
          ∧ monitor_trigger row' = monitor_trigger row
          ∧ monitor_start_utc row' = monitor_start_utc row
          ∧ monitor_end_utc row' = monitor_end_utc row
          ∧ requested_by row' = requested_by row ∧ notify row' = notify row
          ∧ comments row' = comments row
          ∧ email_subject row' = email_subject row
          ∧ email_body row' = email_body row))
    (db w) (db (workflow config env now_hour now_minute device_id w).1).
Proof.
  intros Hnd.
  assert (Forall2 (flag_only device_id) (db w)
            (db (workflow config env now_hour now_minute device_id w).1)) as Hframe.
  { unfold workflow.
    destruct (can_connect env (db w) device_id) as [[k r]|e] eqn:Hprobe;
      [|apply flag_only_refl].
    assert (k = device_id) as ->.
    { unfold can_connect in Hprobe.
      destruct (MonitorService.get_devices [] (db w) !! device_id); [|done].
      destruct (match port _ with Some _ => _ | None => _ end); congruence. }
    by apply process_notification_frame. }
  eapply Forall2_impl; [exact Hframe|].
  intros row row' [->|[Hid ->]]; [by left|right]. by repeat split.
Qed.

(** ** Template rendering *)

Section Rendering.

Lemma prefix_absent c old s :
  occurs c s = false → String.prefix (String c old) s = false.
Proof.
  destruct s as [|a s]; [done|]. simpl.
  destruct (ascii_dec c a) as [->|Hne].
  - by rewrite Ascii.eqb_refl.
  - done.
Qed.

Lemma replace_from_absent c old new s :
  occurs c s = false → Py.replace_from (String c old) new O s = s.
Proof.
  induction s as [|a s IH]; [done|]. intros Hocc.
  cbn [Py.replace_from]. rewrite prefix_absent by done.
  f_equal. apply IH. simpl in Hocc. by apply orb_false_iff in Hocc as [_ ?].
Qed.

(** A text without [c] has nothing that a key starting with [c] matches. *)
Lemma replace_absent c old new s :
  occurs c s = false → Py.replace (String c old) new s = s.
Proof. apply replace_from_absent. Qed.

Lemma occurs_pretty_N_go (x : N) s :
  occurs "$" s = false → occurs "$" (pretty_N_go x s) = false.
Proof.
  revert s. induction (N.lt_wf_0 x) as [x _ IH]; intros s Hs.
  destruct (decide (0 < x)%N) as [Hpos|Hzero].
  - rewrite pretty_N_go_step by done. apply IH.
    + by apply N.div_lt.
    + simpl. rewrite Hs. unfold pretty_N_char. by repeat case_match.
  - replace x with 0%N by lia. done.
Qed.

Lemma occurs_fmt_opt_int (x : option Z) : occurs "$" (Py.fmt_opt_int x) = false.
Proof.
  destruct x as [[|p|p]|]; try done.
  - unfold Py.fmt_opt_int, pretty, pretty_Z, pretty, pretty_positive, pretty, pretty_N.
    case_decide; [done|]. by apply occurs_pretty_N_go.
  - unfold Py.fmt_opt_int, pretty, pretty_Z, pretty, pretty_positive, pretty, pretty_N.
    case_decide; [done|]. simpl. by apply occurs_pretty_N_go.
Qed.

End Rendering.

Lemma append_empty_r (s : string) : s +:+ "" = s.
Proof.
  induction s as [|a s IH]; [done|].
  change (String a (s +:+ "") = String a s). by f_equal.
Qed.

(** C10 (template rendering). [format_message] is the seven replacements of
    [$name], [$identifier], [$port], [$protocol], [$trigger], [$requested_by]
    and [$comments], one after the other in this order; a text without [$],
    and a token such as [$unknown], come out verbatim; and, the replacements
    being sequential, a device named [$port] has its [$name] rendered as the
    value of its port. *)
Theorem format_message_sequential device :
  (∀ str_template,
     format_message device str_template
     = Py.replace "$comments" (Py.fmt_opt_str (comments device))
         (Py.replace "$requested_by" (requested_by device)
            (Py.replace "$trigger" (monitor_trigger device)
               (Py.replace "$protocol" (Py.fmt_opt_str (proto device))
                  (Py.replace "$port" (Py.fmt_opt_int (port device))
                     (Py.replace "$identifier" (identifier device)
                        (Py.replace "$name" (name device) str_template)))))))
  ∧ (∀ str_template,
       occurs "$" str_template = false → format_message device str_template = str_template)
  ∧ format_message device "$unknown" = "$unknown"
  ∧ (name device = "$port" →
     format_message device "$name" = Py.fmt_opt_int (port device)).
Proof.
  split; [done|]. split; [|split; [done|]].
  - intros t Ht. unfold format_message, template_mappings. cbn [foldl].
    by do 7 rewrite (replace_absent _ _ _ t Ht).
  - intros Hname. unfold format_message, template_mappings. cbn [foldl].
    rewrite Hname.
    change (Py.replace "$name" "$port" "$name") with "$port".
    change (Py.replace "$identifier" (identifier device) "$port") with "$port".
    change (Py.replace "$port" (Py.fmt_opt_int (port device)) "$port")
      with (Py.fmt_opt_int (port device) +:+ "").
    rewrite append_empty_r.
    by do 4 rewrite (replace_absent _ _ _ _ (occurs_fmt_opt_int (port device))).
Qed.

Lemma format_message_sequential_witness :
  let device := {| id := 3; name := "$port"; identifier := "10.0.0.7";
                   port := Some 8080; proto := Some "TCP"; persist := true;
                   monitor_trigger := "OFFLINE";
                   monitor_start_utc := "00:00"; monitor_end_utc := "23:59";
                   requested_by := "ops"; notify := "ops@example.org";
                   comments := None;
                   email_subject := "$name"; email_body := "$name is $trigger";
                   been_notified := false |} in
  format_message device "no placeholder" = "no placeholder"
  ∧ format_message device "$name" = "8080".
Proof.
  intros device.
  destruct (format_message_sequential device) as (_ & Hverbatim & _ & Hname).
  split.
  - apply Hverbatim. reflexivity.
  - rewrite Hname; reflexivity.
Defined.

Lemma workflow_mutates_only_the_flag_witness :
  db (workflow Sample.config (Sample.env_exit 1) 3 15 1 Sample.world0).1
  = [set_been_notified true Sample.web1; Sample.printer]
  ∧ Forall2
      (λ row row',
         row' = row
         ∨ (id row = 1
            ∧ been_notified row' = negb (been_notified row)
            ∧ id row' = id row ∧ name row' = name row
            ∧ identifier row' = identifier row ∧ port row' = port row
            ∧ proto row' = proto row ∧ persist row' = persist row
            ∧ monitor_trigger row' = monitor_trigger row
            ∧ monitor_start_utc row' = monitor_start_utc row
            ∧ monitor_end_utc row' = monitor_end_utc row
            ∧ requested_by row' = requested_by row ∧ notify row' = notify row
            ∧ comments row' = comments row
            ∧ email_subject row' = email_subject row
            ∧ email_body row' = email_body row))
      (db Sample.world0)
      (db (workflow Sample.config (Sample.env_exit 1) 3 15 1 Sample.world0).1).
Proof.
  split; [reflexivity|].
  apply (workflow_mutates_only_the_flag Sample.config (Sample.env_exit 1) 3 15 1
           Sample.world0).
  by apply (bool_decide_unpack _).
Defined.


(** * Further properties *)

(** ** The store: reading, deleting and updating devices *)

Section StoreOperations.

Implicit Types (rows : list MonitorDevice) (devices : gmap Z MonitorDevice).

(** The dictionary of the rows selected by their key. *)
Lemma by_id_filter (P : MonitorDevice → Prop) `{!∀ row, Decision (P row)}
    (Q : Z → Prop) rows k :
  (∀ row, P row ↔ Q (id row)) →
  (Q k → MonitorService.by_id (filter P rows) !! k = MonitorService.by_id rows !! k)
  ∧ (¬ Q k → MonitorService.by_id (filter P rows) !! k = None).
Proof.
  intros HPQ. split; intros HQ.
  - unfold MonitorService.by_id.
    generalize (eq_refl ((∅ : gmap Z MonitorDevice) !! k)).
    generalize (∅ : gmap Z MonitorDevice) at 1 3.
    generalize (∅ : gmap Z MonitorDevice).
    induction rows as [|r rows IH]; intros devices2 devices1 Hm; [done|].
    destruct (decide (P r)) as [Hr|Hr].
    + rewrite filter_cons_True by done. cbn [foldl]. apply IH.
      destruct (decide (id r = k)) as [<-|Hne].
      * by rewrite !lookup_insert_eq.
      * by rewrite !lookup_insert_ne.
    + rewrite filter_cons_False by done. cbn [foldl]. apply IH.
      rewrite lookup_insert_ne; [done|]. intros <-. by apply Hr, HPQ.
  - unfold MonitorService.by_id. rewrite foldl_insert_fresh; [done|].
    intros Hk. apply list_elem_of_fmap in Hk as (row & Hid & Hrow). subst k.
    apply list_elem_of_filter in Hrow as [Hrow _]. by apply HQ, HPQ.
Qed.

Lemma by_id_snoc rows device :
  MonitorService.by_id (rows ++ [device])
  = <[id device := device]> (MonitorService.by_id rows).
Proof. unfold MonitorService.by_id. by rewrite foldl_app. Qed.

Lemma merge_absent device rows :
  existsb (λ row, id row =? id device) rows = false →
  DatabaseService.merge device rows = rows ++ [device]
  ∧ id device ∉ id <$> rows.
Proof.
  intros Hnone. unfold DatabaseService.merge. rewrite Hnone. split; [done|].
  intros Hk. apply list_elem_of_fmap in Hk as (row & Hid & Hrow).
  assert (existsb (λ row, id row =? id device) rows = true) as Hsome; [|congruence].
  apply existsb_exists. exists row. split.
  - by apply list_elem_of_In.
  - apply Z.eqb_eq. congruence.
Qed.

Lemma merge_cases device rows :
  ((∃ r, r ∈ rows ∧ id r = id device)
   ∧ DatabaseService.merge device rows = DatabaseService.overwrite device <$> rows)
  ∨ ((id device ∉ (id <$> rows))
     ∧ DatabaseService.merge device rows = rows ++ [device]).
Proof.
  destruct (existsb (λ row, id row =? id device) rows) eqn:Hex.
  - left. apply existsb_exists in Hex as (r & Hr & Hid).
    assert (∃ r, r ∈ rows ∧ id r = id device) as Hpresent.
    { exists r. split; [by apply list_elem_of_In | by apply Z.eqb_eq]. }
    split; [done|]. by apply merge_present.
  - right. by destruct (merge_absent device rows Hex).
Qed.

(** [session.merge] seen through the dictionary: an insertion. *)
Lemma by_id_merge device rows :
  MonitorService.by_id (DatabaseService.merge device rows)
  = <[id device := device]> (MonitorService.by_id rows).
Proof.
  apply map_eq. intros k.
  destruct (merge_cases device rows) as [[Hpresent _]|[_ Heq]].
  - destruct (decide (k = id device)) as [->|Hne].
    + by rewrite by_id_merge_eq, lookup_insert_eq.
    + rewrite by_id_merge_ne by done. by rewrite lookup_insert_ne.
  - by rewrite Heq, by_id_snoc.
Qed.

Lemma by_id_update_devices updates rows :
  MonitorService.by_id (DatabaseService.update_devices updates rows)
  = foldl (λ devices device, <[id device := device]> devices)
      (MonitorService.by_id rows) updates.
Proof.
  unfold DatabaseService.update_devices. revert rows.
  induction updates as [|d updates IH]; intros rows; [done|].
  cbn [foldl]. by rewrite IH, by_id_merge.
Qed.

Lemma foldl_insert_union updates devices :
  foldl (λ devices device, <[id device := device]> devices) devices updates
  = MonitorService.by_id updates ∪ devices.
Proof.
  induction updates as [|d updates IH] using rev_ind.
  - simpl. unfold MonitorService.by_id. simpl. by rewrite (left_id_L ∅ (∪)).
  - rewrite foldl_app, by_id_snoc. cbn [foldl]. rewrite IH.
    by rewrite insert_union_l.
Qed.

End StoreOperations.

(** X1 (reading after a deletion). After [delete_devices(device_ids)] the
    dictionary of devices has no entry for an id of the list and the entry it
    had before for every other id; ids that no device has are ignored. *)
Theorem get_devices_after_delete device_ids db k :
  MonitorService.get_devices [] (MonitorService.remove_devices device_ids db) !! k
  = if decide (k ∈ device_ids) then None else MonitorService.get_devices [] db !! k.
Proof.
  unfold MonitorService.get_devices, DatabaseService.get_all_devices,
    MonitorService.remove_devices, DatabaseService.delete_devices.
  destruct (by_id_filter (λ row, id row ∉ device_ids) (λ k, k ∉ device_ids) db k)
    as [Hkept Hgone]; [done|].
  destruct (decide (k ∈ device_ids)) as [Hin|Hout].
  - apply Hgone. by intros Hnot.
  - by apply Hkept.
Qed.

(** X2 (deletions compose). Deleting two lists of ids one after the other is
    deleting their concatenation; so deleting the same ids twice, as the
    DELETE handler of [/api/devices] does, is deleting them once, and deleting
    the empty list changes nothing. *)
Theorem delete_devices_compose device_ids device_ids' db :
  DatabaseService.delete_devices device_ids' (DatabaseService.delete_devices device_ids db)
  = DatabaseService.delete_devices (device_ids ++ device_ids') db
  ∧ MonitorService.remove_devices device_ids (DatabaseService.delete_devices device_ids db)
    = DatabaseService.delete_devices device_ids db
  ∧ DatabaseService.delete_devices [] db = db.
Proof.
  unfold MonitorService.remove_devices, DatabaseService.delete_devices,
    DatabaseService.table in *.
  split; [|split].
  - rewrite list_filter_filter. apply list_filter_iff. intros row.
    rewrite elem_of_app. tauto.
  - rewrite list_filter_filter. apply list_filter_iff. tauto.
  - apply filter_all. intros row _. apply not_elem_of_nil.
Qed.

(** X3 (reading after an update). After [update_devices(devices)] the
    dictionary of devices is the old one overridden by the dictionary of the
    written devices: each written device is read back under its id, also when
    the table had no row for it, and every other entry is as before. *)
Theorem get_devices_after_update devices db :
  MonitorService.get_devices [] (MonitorService.update_devices devices db)
  = MonitorService.by_id devices ∪ MonitorService.get_devices [] db.
Proof.
  unfold MonitorService.get_devices, DatabaseService.get_all_devices,
    MonitorService.update_devices.
  by rewrite by_id_update_devices, foldl_insert_union.
Qed.

(** X4 (reading by ids). With a non-empty list of ids, [get_devices] answers
    with the devices of the table that have one of these ids, under their id,
    and leaves out the ids that no device has. *)
Theorem get_devices_of_ids device_ids db k :
  device_ids ≠ [] →
  MonitorService.get_devices device_ids db !! k
  = if decide (k ∈ device_ids) then MonitorService.get_devices [] db !! k else None.
Proof.
  intros Hne. destruct device_ids as [|i device_ids]; [done|].
  unfold MonitorService.get_devices, DatabaseService.read_devices,
    DatabaseService.get_all_devices.
  destruct (by_id_filter (λ row, id row ∈ i :: device_ids) (λ k, k ∈ i :: device_ids)
              db k) as [Hkept Hgone]; [done|].
  destruct (decide (k ∈ i :: device_ids)); [by apply Hkept | by apply Hgone].
Qed.

Lemma get_devices_of_ids_witness :
  MonitorService.get_devices [2; 7] (db Sample.world0) !! 2 = Some Sample.printer
  ∧ MonitorService.get_devices [2; 7] (db Sample.world0) !! 7 = None
  ∧ MonitorService.get_devices [2; 7] (db Sample.world0) !! 1 = None.
Proof.
  rewrite !(get_devices_of_ids [2; 7] (db Sample.world0)) by done.
  repeat split; reflexivity.
Defined.

(** ** The key of the table *)

Lemma ids_overwrite device (rows : list MonitorDevice) :
  id <$> (DatabaseService.overwrite device <$> rows) = id <$> rows.
Proof.
  induction rows as [|r rows IH]; [done|].
  rewrite !fmap_cons, id_overwrite. by f_equal.
Qed.

Lemma merge_NoDup device (rows : list MonitorDevice) :
  NoDup (id <$> rows) → NoDup (id <$> DatabaseService.merge device rows).
Proof.
  intros Hnd. destruct (merge_cases device rows) as [[_ ->]|[Hfresh ->]].
  - by rewrite ids_overwrite.
  - rewrite fmap_app. apply NoDup_app. split; [done|]. split.
    + intros k Hk Hk'. apply list_elem_of_singleton in Hk'. by subst k.
    + apply NoDup_singleton.
Qed.

Lemma update_devices_NoDup devices (rows : list MonitorDevice) :
  NoDup (id <$> rows) → NoDup (id <$> MonitorService.update_devices devices rows).
Proof.
  unfold MonitorService.update_devices, DatabaseService.update_devices.
  revert rows. induction devices as [|d devices IH]; intros rows Hnd; [done|].
  cbn [foldl]. by apply IH, merge_NoDup.
Qed.

Lemma delete_devices_NoDup device_ids (rows : list MonitorDevice) :
  NoDup (id <$> rows) → NoDup (id <$> DatabaseService.delete_devices device_ids rows).
Proof.
  intros Hnd. eapply sublist_NoDup; [exact Hnd|].
  apply fmap_sublist, sublist_filter.
Qed.

(** X5 (the primary key is kept). When no two rows of the table have the same
    [id], this is still so after [update_devices], after [delete_devices],
    after [cleanup_monitor] and after the workflow of a device. *)
Theorem id_stays_a_key config env now_hour now_minute device_id devices device_ids w :
  NoDup (id <$> db w) →
  NoDup (id <$> MonitorService.update_devices devices (db w))
  ∧ NoDup (id <$> MonitorService.remove_devices device_ids (db w))
  ∧ NoDup (id <$> cleanup_monitor (db w))
  ∧ NoDup (id <$> db (workflow config env now_hour now_minute device_id w).1).
Proof.
  intros Hnd. split; [by apply update_devices_NoDup|].
  split; [by apply delete_devices_NoDup|].
  split; [by apply delete_devices_NoDup|].
  unfold workflow.
  destruct (can_connect env (db w) device_id) as [[k r]|e]; [|done].
  unfold process_notification.
  destruct (MonitorService.get_devices [] (db w) !! k) as [device|]; [|done].
  destruct r as [c|]; [|done].
  destruct (notification_decision device c now_hour now_minute) as [[|s b]|e];
    [done| |done].
  destruct (send_notification_db config env device s b w) as [-> | ->]; [done|].
  by apply update_devices_NoDup.
Qed.

Lemma id_stays_a_key_witness :
  NoDup (id <$> MonitorService.update_devices [Sample.printer] (db Sample.world0))
  ∧ NoDup (id <$> MonitorService.remove_devices [1] (db Sample.world0))
  ∧ NoDup (id <$> cleanup_monitor (db Sample.world0))
  ∧ NoDup (id <$> db (workflow Sample.config (Sample.env_exit 1) 3 15 1 Sample.world0).1).
Proof.
  apply (id_stays_a_key Sample.config (Sample.env_exit 1) 3 15 1 [Sample.printer] [1]
           Sample.world0).
  by apply (bool_decide_unpack _).
Defined.

(** ** The evaluator at the edges of its input *)

Lemma process_quiet config env w device_id device can_connect now_hour now_minute :
  MonitorService.get_devices [] (db w) !! device_id = Some device →
  (∀ s b, notification_decision device can_connect now_hour now_minute
          ≠ Py.Return (NOTIFY s b)) →
  (process_notification config env now_hour now_minute (device_id, Some can_connect) w).1
  = w.
Proof.
  intros Hdev Hquiet. unfold process_notification. rewrite Hdev.
  destruct (notification_decision device can_connect now_hour now_minute)
    as [[|s b]|e] eqn:Hdec; try done.
  by destruct (Hquiet s b).
Qed.

(** X6 (a window over midnight). When the end of the window is below its
    start, as for 22:00 to 02:00, no time of day is inside it: the evaluator
    decides NO_OP at every time and for every probe result, and the task
    changes nothing. *)
Theorem window_over_midnight_never_open config env w device_id device can_connect
    window_start window_end now_hour now_minute :
  MonitorService.get_devices [] (db w) !! device_id = Some device →
  window_of device window_start window_end →
  window_end < window_start →
  notification_decision device can_connect now_hour now_minute = Py.Return NO_OP
  ∧ process_notification config env now_hour now_minute (device_id, Some can_connect) w
    = (w, Py.Return ()).
Proof.
  intros Hdev Hwin Hwrap.
  assert (notification_decision device can_connect now_hour now_minute
          = Py.Return NO_OP) as Hdec.
  { rewrite (decision_window _ _ _ _ _ _ Hwin).
    replace (_ && _) with false; [done|].
    symmetry. apply andb_false_iff. lia. }
  split; [done|]. by apply (process_NO_OP _ _ _ _ _ Hdev).
Qed.

Lemma window_over_midnight_never_open_witness :
  notification_decision Sample.night_watch false 23 30 = Py.Return NO_OP
  ∧ process_notification Sample.config (Sample.env_exit 1) 23 30 (4, Some false)
      (Sample.world_of [Sample.night_watch])
    = (Sample.world_of [Sample.night_watch], Py.Return ()).
Proof.
  apply (window_over_midnight_never_open Sample.config (Sample.env_exit 1)
           (Sample.world_of [Sample.night_watch]) 4 Sample.night_watch false
           2200 200 23 30).
  - reflexivity.
  - split; reflexivity.
  - lia.
Defined.

(** X7 (a window that is not a number). When the start or the end of the
    window is an ASCII string that, its colons removed, is not an integer
    literal of [int] (optional whitespace, an optional sign, decimal digits
    with single underscores between them), the task raises [ValueError] for
    every probe result and every time, and changes nothing. *)
Theorem malformed_window_raises config env w device_id device can_connect
    now_hour now_minute :
  MonitorService.get_devices [] (db w) !! device_id = Some device →
  (is_ascii (monitor_start_utc device) = true
   ∧ Py.int (Py.replace ":" "" (monitor_start_utc device)) = None)
  ∨ (is_ascii (monitor_end_utc device) = true
     ∧ Py.int (Py.replace ":" "" (monitor_end_utc device)) = None) →
  process_notification config env now_hour now_minute (device_id, Some can_connect) w
  = (w, Py.Raise Py.ValueError).
Proof.
  intros Hdev Hbad. apply (process_Raise _ _ _ _ _ Hdev).
  unfold notification_decision, int_or_raise.
  destruct Hbad as [[_ ->] | [_ ->]]; [done|].
  by destruct (Py.int _).
Qed.

Lemma malformed_window_raises_witness :
  process_notification Sample.config (Sample.env_exit 1) 9 0 (5, Some false)
    (Sample.world_of [Sample.bad_window])
  = (Sample.world_of [Sample.bad_window], Py.Raise Py.ValueError).
Proof.
  apply (malformed_window_raises Sample.config (Sample.env_exit 1)
           (Sample.world_of [Sample.bad_window]) 5 Sample.bad_window false 9 0).
  - reflexivity.
  - left. split; reflexivity.
Defined.

(** X8 (a trigger that is neither word). The trigger is compared, case
    and all, with "ONLINE" and "OFFLINE"; a device with any other trigger
    never gets a NOTIFY, and its task changes nothing. *)
Theorem unknown_trigger_never_notifies config env w device_id device can_connect
    now_hour now_minute :
  MonitorService.get_devices [] (db w) !! device_id = Some device →
  monitor_trigger device ≠ "ONLINE" →
  monitor_trigger device ≠ "OFFLINE" →
  trigger_criteria device can_connect = NO_OP
  ∧ ¬ decides_NOTIFY w device_id can_connect now_hour now_minute
  ∧ (process_notification config env now_hour now_minute
       (device_id, Some can_connect) w).1 = w.
Proof.
  intros Hdev Hon Hoff.
  assert (trigger_criteria device can_connect = NO_OP) as Hcrit.
  { unfold trigger_criteria.
    apply String.eqb_neq in Hon, Hoff. rewrite Hon, Hoff.
    by rewrite !andb_false_r. }
  assert (∀ s b, notification_decision device can_connect now_hour now_minute
                 ≠ Py.Return (NOTIFY s b)) as Hquiet.
  { intros s b Hdec. apply decision_NOTIFY_criteria in Hdec. congruence. }
  split; [done|]. split.
  - intros (device' & s & b & Hdev' & Hdec).
    rewrite Hdev in Hdev'. injection Hdev' as <-. by apply (Hquiet s b).
  - by apply (process_quiet _ _ _ _ device).
Qed.

Lemma unknown_trigger_never_notifies_witness :
  trigger_criteria Sample.lower_case false = NO_OP
  ∧ ¬ decides_NOTIFY (Sample.world_of [Sample.lower_case]) 6 false 9 0
  ∧ (process_notification Sample.config (Sample.env_exit 1) 9 0 (6, Some false)
       (Sample.world_of [Sample.lower_case])).1 = Sample.world_of [Sample.lower_case].
Proof.
  apply (unknown_trigger_never_notifies Sample.config (Sample.env_exit 1)
           (Sample.world_of [Sample.lower_case]) 6 Sample.lower_case false 9 0).
  - reflexivity.
  - discriminate.
  - discriminate.
Defined.

(** X9 (a notified one-shot device is silent). A device that is not
    persistent and has [been_notified] set gets no NOTIFY, whatever the probe
    result and the time: until cleanup removes it, its task changes
    nothing. *)
Theorem notified_transient_is_silent config env w device_id device can_connect
    now_hour now_minute :
  MonitorService.get_devices [] (db w) !! device_id = Some device →
  persist device = false →
  been_notified device = true →
  ¬ decides_NOTIFY w device_id can_connect now_hour now_minute
  ∧ (process_notification config env now_hour now_minute
       (device_id, Some can_connect) w).1 = w.
Proof.
  intros Hdev Hpersist Hflag.
  assert (∀ s b, notification_decision device can_connect now_hour now_minute
                 ≠ Py.Return (NOTIFY s b)) as Hquiet.
  { intros s b Hdec. apply decision_NOTIFY_criteria in Hdec.
    unfold trigger_criteria in Hdec. rewrite Hpersist, Hflag in Hdec.
    by rewrite andb_false_r in Hdec. }
  split.
  - intros (device' & s & b & Hdev' & Hdec).
    rewrite Hdev in Hdev'. injection Hdev' as <-. by apply (Hquiet s b).
  - by apply (process_quiet _ _ _ _ device).
Qed.

Lemma notified_transient_is_silent_witness :
  let w := Sample.world_of [set_been_notified true Sample.printer] in
  ¬ decides_NOTIFY w 2 true 9 0
  ∧ (process_notification Sample.config (Sample.env_exit 0) 9 0 (2, Some true) w).1 = w.
Proof.
  apply (notified_transient_is_silent Sample.config (Sample.env_exit 0)
           (Sample.world_of [set_been_notified true Sample.printer]) 2
           (set_been_notified true Sample.printer) true 9 0); reflexivity.
Defined.

(** X10 (a probe that cannot run). When [subprocess.run] raises for the
    [ping] of a device without port, [can_connect] answers with [None] and
    the chained [process_notification] raises [ValueError]: nothing is sent
    and nothing is written. *)
Theorem unknown_probe_ends_the_workflow config env now_hour now_minute w device_id device :
  MonitorService.get_devices [] (db w) !! device_id = Some device →
  port device = None →
  subprocess_run env [Str "/bin/ping"; Str "-W"; Str "1"; Str "-c"; Str "3";
                      Str (identifier device)] = None →
  can_connect env (db w) device_id = Py.Return (device_id, None)
  ∧ workflow config env now_hour now_minute device_id w = (w, Py.Raise Py.ValueError).
Proof.
  intros Hdev Hport Hrun.
  assert (can_connect env (db w) device_id = Py.Return (device_id, None)) as Hprobe.
  { unfold can_connect, run. by rewrite Hdev, Hport, Hrun. }
  split; [done|]. unfold workflow. rewrite Hprobe.
  unfold process_notification. by rewrite Hdev.
Qed.

Lemma unknown_probe_ends_the_workflow_witness :
  can_connect Sample.env_no_process (db Sample.world0) 1 = Py.Return (1, None)
  ∧ workflow Sample.config Sample.env_no_process 3 15 1 Sample.world0
    = (Sample.world0, Py.Raise Py.ValueError).
Proof.
  apply (unknown_probe_ends_the_workflow Sample.config Sample.env_no_process 3 15
           Sample.world0 1 Sample.web1); reflexivity.
Defined.

(** ** The mail session *)

Lemma prefix_append (p s : string) : String.prefix p (p +:+ s) = true.
Proof.
  induction p as [|a p IH].
  { change ("" +:+ s) with s. by destruct s. }
  change (String.prefix (String a p) (String a (p +:+ s)) = true).
  simpl. by destruct (ascii_dec a a).
Qed.

Lemma criteria_subject device can_connect s b :
  trigger_criteria device can_connect = NOTIFY s b →
  String.prefix "[Ping] " s = true.
Proof.
  unfold trigger_criteria.
  destruct (_ && negb _); [|destruct (_ && been_notified _); [|done]];
    intros [= <- _]; apply prefix_append.
Qed.

(** X11 (one mail session per task). A task of [process_notification] either
    makes no SMTP call and changes nothing, or opens a connection that fails
    and changes nothing else, or makes exactly the calls [SMTP], [send_message]
    and [quit] in this order; the one message goes to the [notify] address of
    the device, from the configured sender and reply-to addresses, with a
    subject that starts with "[Ping] ", and it is recorded as delivered exactly
    when [send_message] accepts it, the table being untouched otherwise. *)
Theorem one_mail_session_per_task config env now_hour now_minute device_id r w :
  let w' := (process_notification config env now_hour now_minute (device_id, r) w).1 in
  w' = w
  ∨ (∃ server,
       config !! "SMTP_SERVER" = Some server ∧ smtp_connect env server = false
       ∧ smtp_calls w' = smtp_calls w ++ [SMTP server]
       ∧ delivered w' = delivered w ∧ db w' = db w)
  ∨ (∃ device server msg,
       MonitorService.get_devices [] (db w) !! device_id = Some device
       ∧ smtp_calls w' = smtp_calls w ++ [SMTP server; Send_message msg; Quit]
       ∧ To msg = notify device
       ∧ config !! "SENDER_EMAIL" = Some (From msg)
       ∧ config !! "REPLY_TO_EMAIL" = Some (reply_to msg)
       ∧ config !! "SMTP_SERVER" = Some server
       ∧ String.prefix "[Ping] " (Subject msg) = true
       ∧ ((smtp_send_message env msg = true ∧ delivered w' = delivered w ++ [msg])
          ∨ (smtp_send_message env msg = false
             ∧ delivered w' = delivered w ∧ db w' = db w))).
Proof.
  intros w'. subst w'. unfold process_notification.
  destruct (MonitorService.get_devices [] (db w) !! device_id) as [device|] eqn:Hdev;
    [|by left].
  destruct r as [c|]; [|by left].
  destruct (notification_decision device c now_hour now_minute) as [[|s b]|e] eqn:Hdec;
    [by left| |by left].
  apply decision_NOTIFY_criteria, criteria_subject in Hdec.
  unfold send_notification.
  destruct (config !! "SENDER_EMAIL") as [sender|] eqn:Hsender; [|by left].
  destruct (config !! "REPLY_TO_EMAIL") as [reply|] eqn:Hreply; [|by left].
  destruct (config !! "SMTP_SERVER") as [server|] eqn:Hserver; [|by left].
  destruct (smtp_connect env server) eqn:Hconnect.
  - right. right.
    exists device, server,
      {| To := notify device; From := sender; reply_to := reply;
         Subject := s; body := b |}.
    split; [done|].
    destruct (smtp_send_message env _) eqn:Hsend; simpl;
      rewrite <- !app_assoc; simpl; repeat split; auto.
  - right. left. exists server. by repeat split.
Qed.

(** X12 (the mail server cannot be reached). When a NOTIFY is decided with
    the two addresses configured and the connection to the mail server
    cannot be opened, or no server is configured, the task ends with
    [UnboundLocalError], raised by [smtp_server.quit()] in the [finally]
    clause; nothing is delivered and the table is untouched. *)
Theorem unreachable_mail_server_raises config env w device_id device can_connect
    now_hour now_minute s b sender_email reply_to_email :
  MonitorService.get_devices [] (db w) !! device_id = Some device →
  notification_decision device can_connect now_hour now_minute = Py.Return (NOTIFY s b) →
  config !! "SENDER_EMAIL" = Some sender_email →
  config !! "REPLY_TO_EMAIL" = Some reply_to_email →
  config !! "SMTP_SERVER" = None
  ∨ (∃ server, config !! "SMTP_SERVER" = Some server ∧ smtp_connect env server = false) →
  let outcome := process_notification config env now_hour now_minute
                   (device_id, Some can_connect) w in
  outcome.2 = Py.Raise Py.UnboundLocalError
  ∧ delivered outcome.1 = delivered w
  ∧ db outcome.1 = db w.
Proof.
  intros Hdev Hdec Hsender Hreply Hserver outcome. subst outcome.
  rewrite (process_NOTIFY _ _ _ _ _ Hdev _ _ _ _ _ Hdec).
  unfold send_notification. rewrite Hsender, Hreply.
  destruct Hserver as [-> | (server & -> & ->)]; done.
Qed.

Lemma unreachable_mail_server_raises_witness :
  let outcome := process_notification Sample.config Sample.env_mail_down 3 15
                   (1, Some false) Sample.world0 in
  outcome.2 = Py.Raise Py.UnboundLocalError
  ∧ delivered outcome.1 = delivered Sample.world0
  ∧ db outcome.1 = db Sample.world0.
Proof.
  apply (unreachable_mail_server_raises Sample.config Sample.env_mail_down Sample.world0
           1 Sample.web1 false 3 15
           "[Ping] web1 is down" "web1 (10.0.0.5) went OFFLINE, asked by ops"
           "ping@example.org" "noreply@example.org").
  - reflexivity.
  - reflexivity.
  - reflexivity.
  - reflexivity.
  - right. exists "mail.example.org". split; reflexivity.
Defined.

(** ** Cycles that follow one another *)

Lemma set_been_notified_same b device :
  been_notified device = b → set_been_notified b device = device.
Proof. destruct device. simpl. by intros ->. Qed.

Lemma opposes_after_matches device can_connect :
  matches_trigger device can_connect → opposes_trigger device (negb can_connect).
Proof. intros [[-> ?]|[-> ?]]; [by right | by left]. Qed.

Lemma forward_db config env w device_id device can_connect
    window_start window_end now_hour now_minute sender_email reply_to_email :
  MonitorService.get_devices [] (db w) !! device_id = Some device →
  window_of device window_start window_end →
  window_start ≤ now_hour * 100 + now_minute ≤ window_end →
  matches_trigger device can_connect →
  been_notified device = false →
  delivers config env
    {| To := notify device; From := sender_email; reply_to := reply_to_email;
       Subject := "[Ping] " +:+ format_message device (email_subject device);
       body := format_message device (email_body device) |} →
  db (process_notification config env now_hour now_minute
        (device_id, Some can_connect) w).1
  = MonitorService.update_devices [set_been_notified true device] (db w).
Proof.
  intros Hdev Hwin Hnow Hmatch Hflag Hdel.
  rewrite (process_NOTIFY _ _ _ _ _ Hdev _ _ _ _ _
             (decision_forward _ _ _ _ _ _ Hwin Hnow Hmatch Hflag)).
  destruct (send_delivers _ _ device _ _ w _ _ Hdel) as [Hdb _].
  by rewrite Hflag, andb_false_r in Hdb.
Qed.

Lemma reverse_delivery config env w device_id device can_connect
    window_start window_end now_hour now_minute sender_email reply_to_email :
  MonitorService.get_devices [] (db w) !! device_id = Some device →
  window_of device window_start window_end →
  window_start ≤ now_hour * 100 + now_minute ≤ window_end →
  opposes_trigger device can_connect →
  persist device = true →
  been_notified device = true →
  let msg := {| To := notify device; From := sender_email; reply_to := reply_to_email;
                Subject := "[Ping] " +:+ name device +:+ " is now "
                           +:+ state_name can_connect;
                body := name device +:+ " is now back "
                        +:+ state_name can_connect +:+ "." |} in
  let w' := (process_notification config env now_hour now_minute
               (device_id, Some can_connect) w).1 in
  delivers config env msg →
  MonitorService.get_devices [] (db w') !! device_id = Some (set_been_notified false device)
  ∧ delivered w' = delivered w ++ [msg].
Proof.
  intros Hdev Hwin Hnow Hopp Hpersist Hflag msg w' Hdel. subst w'.
  pose proof (decision_window device can_connect _ _ now_hour now_minute Hwin) as Hdec.
  replace (_ && _) with true in Hdec by (symmetry; apply andb_true_iff; lia).
  rewrite criteria_reverse in Hdec by done.
  rewrite (process_NOTIFY _ _ _ _ _ Hdev _ _ _ _ _ Hdec).
  destruct (send_delivers _ _ device _ _ w _ _ Hdel) as [Hdb Hsent].
  rewrite Hpersist, Hflag in Hdb. simpl in Hdb. split; [|done].
  rewrite Hdb. by apply (lookup_update_devices _ _ _ Hdev).
Qed.

(** X13 (there and back). A persistent device that has not notified, whose
    probe result first is the trigger state and in a later cycle the opposite
    one, both inside the window and both delivered, is read back exactly as it
    was before the two cycles, and two messages were delivered: the alert
    rendered from its templates, then the "is now back" message. *)
Theorem forward_then_reverse_restores config env env' w device_id device can_connect
    window_start window_end now_hour now_minute now_hour' now_minute'
    sender_email reply_to_email :
  MonitorService.get_devices [] (db w) !! device_id = Some device →
  window_of device window_start window_end →
  window_start ≤ now_hour * 100 + now_minute ≤ window_end →
  window_start ≤ now_hour' * 100 + now_minute' ≤ window_end →
  matches_trigger device can_connect →
  persist device = true →
  been_notified device = false →
  let alert := {| To := notify device; From := sender_email; reply_to := reply_to_email;
                  Subject := "[Ping] " +:+ format_message device (email_subject device);
                  body := format_message device (email_body device) |} in
  let restored := {| To := notify device; From := sender_email;
                     reply_to := reply_to_email;
                     Subject := "[Ping] " +:+ name device +:+ " is now "
                                +:+ state_name (negb can_connect);
                     body := name device +:+ " is now back "
                             +:+ state_name (negb can_connect) +:+ "." |} in
  delivers config env alert →
  delivers config env' restored →
  let w1 := (process_notification config env now_hour now_minute
               (device_id, Some can_connect) w).1 in
  let w2 := (process_notification config env' now_hour' now_minute'
               (device_id, Some (negb can_connect)) w1).1 in
  MonitorService.get_devices [] (db w1) !! device_id = Some (set_been_notified true device)
  ∧ MonitorService.get_devices [] (db w2) !! device_id = Some device
  ∧ delivered w2 = delivered w ++ [alert; restored].
Proof.
  intros Hdev Hwin Hnow Hnow' Hmatch Hpersist Hflag alert restored Hdel Hdel' w1 w2.
  destruct (forward_delivery config env w device_id device can_connect window_start
              window_end now_hour now_minute sender_email reply_to_email
              Hdev Hwin Hnow Hmatch Hflag Hdel) as [Hdev1 Hsent1].
  fold w1 in Hdev1, Hsent1.
  destruct (reverse_delivery config env' w1 device_id (set_been_notified true device)
              (negb can_connect) window_start window_end now_hour' now_minute'
              sender_email reply_to_email Hdev1) as [Hdev2 Hsent2]; try done.
  { by apply (opposes_after_matches device). }
  fold w2 in Hdev2, Hsent2. split; [done|]. split.
  - rewrite Hdev2. f_equal.
    change (set_been_notified false device = device).
    by apply set_been_notified_same.
  - rewrite Hsent2, Hsent1, <- app_assoc. done.
Qed.

Lemma forward_then_reverse_restores_witness :
  let w1 := (process_notification Sample.config (Sample.env_exit 1) 3 15
               (1, Some false) Sample.world0).1 in
  let w2 := (process_notification Sample.config (Sample.env_exit 0) 3 16
               (1, Some true) w1).1 in
  MonitorService.get_devices [] (db w1) !! 1 = Some (set_been_notified true Sample.web1)
  ∧ MonitorService.get_devices [] (db w2) !! 1 = Some Sample.web1
  ∧ delivered w2 = [Sample.web1_alert; Sample.web1_restored].
Proof.
  apply (forward_then_reverse_restores Sample.config (Sample.env_exit 1)
           (Sample.env_exit 0) Sample.world0 1 Sample.web1 false 0 2359 3 15 3 16
           "ping@example.org" "noreply@example.org").
  - reflexivity.
  - split; reflexivity.
  - lia.
  - lia.
  - right. split; reflexivity.
  - reflexivity.
  - reflexivity.
  - by apply delivers_sample.
  - by apply delivers_sample.
Defined.

(** X14 (a one-shot device goes after its alert). With [id] the key of the
    table: when the forward edge of a device that is not persistent has been
    delivered, the cleanup that follows removes that device, and keeps every
    other row that is not itself a notified one-shot device. *)
Theorem one_shot_removed_after_alert config env w device_id device can_connect
    window_start window_end now_hour now_minute sender_email reply_to_email :
  NoDup (id <$> db w) →
  MonitorService.get_devices [] (db w) !! device_id = Some device →
  window_of device window_start window_end →
  window_start ≤ now_hour * 100 + now_minute ≤ window_end →
  matches_trigger device can_connect →
  persist device = false →
  been_notified device = false →
  delivers config env
    {| To := notify device; From := sender_email; reply_to := reply_to_email;
       Subject := "[Ping] " +:+ format_message device (email_subject device);
       body := format_message device (email_body device) |} →
  let w1 := (process_notification config env now_hour now_minute
               (device_id, Some can_connect) w).1 in
  MonitorService.get_devices [] (cleanup_monitor (db w1)) !! device_id = None
  ∧ (∀ row, row ∈ db w → id row ≠ device_id → should_cleanup row = false →
            row ∈ cleanup_monitor (db w1)).
Proof.
  intros Hnd Hdev Hwin Hnow Hmatch Hpersist Hflag Hdel w1.
  pose proof (forward_db config env w device_id device can_connect window_start
                window_end now_hour now_minute sender_email reply_to_email
                Hdev Hwin Hnow Hmatch Hflag Hdel) as Hdb.
  destruct (forward_delivery config env w device_id device can_connect window_start
              window_end now_hour now_minute sender_email reply_to_email
              Hdev Hwin Hnow Hmatch Hflag Hdel) as [Hdev1 _].
  fold w1 in Hdb, Hdev1.
  assert (NoDup (id <$> db w1)) as Hnd1.
  { rewrite Hdb. by apply update_devices_NoDup. }
  rewrite (cleanup_monitor_filter _ Hnd1).
  pose proof Hdev as Hdev0. apply get_devices_lookup in Hdev0 as [Hin Hid].
  split.
  - destruct (MonitorService.get_devices []
                (filter (λ device, should_cleanup device = false) (db w1)) !! device_id)
      as [d|] eqn:Hd; [|done].
    exfalso. apply get_devices_lookup in Hd as [Hd Hidd].
    apply list_elem_of_filter in Hd as [Hkeep Hd].
    apply get_devices_lookup in Hdev1 as [Hin1 Hid1].
    assert (d = set_been_notified true device) as ->.
    { apply (NoDup_id_inj (db w1)); [done..|congruence]. }
    unfold should_cleanup in Hkeep. simpl in Hkeep. by rewrite Hpersist in Hkeep.
  - intros row Hrow Hne Hkeep. apply list_elem_of_filter. split; [done|].
    rewrite Hdb. unfold MonitorService.update_devices, DatabaseService.update_devices.
    cbn [foldl]. rewrite merge_present by (exists device; done).
    apply list_elem_of_fmap. exists row. split; [|done].
    unfold DatabaseService.overwrite. simpl.
    destruct (Z.eqb_spec (id row) (id device)); [congruence|done].
Qed.

Lemma one_shot_removed_after_alert_witness :
  let w1 := (process_notification Sample.config (Sample.env_exit 0) 9 30
               (2, Some true) Sample.world0).1 in
  MonitorService.get_devices [] (cleanup_monitor (db w1)) !! 2 = None
  ∧ (∀ row, row ∈ db Sample.world0 → id row ≠ 2 → should_cleanup row = false →
            row ∈ cleanup_monitor (db w1)).
Proof.
  apply (one_shot_removed_after_alert Sample.config (Sample.env_exit 0) Sample.world0
           2 Sample.printer true 800 1700 9 30 "ping@example.org" "noreply@example.org").
  - by apply (bool_decide_unpack _).
  - reflexivity.
  - split; reflexivity.
  - lia.
  - left. split; reflexivity.
  - reflexivity.
  - reflexivity.
  - by apply delivers_sample.
Defined.



(** ** Rendering one placeholder *)

(** X16 (a placeholder alone). For each of the seven placeholders, a template
    that is just the placeholder is rendered as the value of its field,
    provided the value has no [$] in it (so that no later replacement
    touches it). *)
Theorem placeholder_renders_its_field device mapping value :
  (mapping, value) ∈ template_mappings device →
  occurs "$" value = false →
  format_message device mapping = value.
Proof.
  intros Hin Hvalue. unfold format_message. unfold template_mappings in *.
  cbn [foldl].
  apply elem_of_cons in Hin as [Hin|Hin].
  { injection Hin as -> ->.
    change (Py.replace "$name" (name device) "$name") with ((name device) +:+ "").
    rewrite append_empty_r.
    by do 6 rewrite (replace_absent _ _ _ _ Hvalue). }
  apply elem_of_cons in Hin as [Hin|Hin].
  { injection Hin as -> ->.
    change (Py.replace "$name" (name device) "$identifier") with "$identifier".
    change (Py.replace "$identifier" (identifier device) "$identifier") with ((identifier device) +:+ "").
    rewrite append_empty_r.
    by do 5 rewrite (replace_absent _ _ _ _ Hvalue). }
  apply elem_of_cons in Hin as [Hin|Hin].
  { injection Hin as -> ->.
    change (Py.replace "$name" (name device) "$port") with "$port".
    change (Py.replace "$identifier" (identifier device) "$port") with "$port".
    change (Py.replace "$port" (Py.fmt_opt_int (port device)) "$port") with ((Py.fmt_opt_int (port device)) +:+ "").
    rewrite append_empty_r.
    by do 4 rewrite (replace_absent _ _ _ _ Hvalue). }
  apply elem_of_cons in Hin as [Hin|Hin].
  { injection Hin as -> ->.
    change (Py.replace "$name" (name device) "$protocol") with "$protocol".
    change (Py.replace "$identifier" (identifier device) "$protocol") with "$protocol".
    change (Py.replace "$port" (Py.fmt_opt_int (port device)) "$protocol") with "$protocol".
    change (Py.replace "$protocol" (Py.fmt_opt_str (proto device)) "$protocol") with ((Py.fmt_opt_str (proto device)) +:+ "").
    rewrite append_empty_r.
    by do 3 rewrite (replace_absent _ _ _ _ Hvalue). }
  apply elem_of_cons in Hin as [Hin|Hin].
  { injection Hin as -> ->.
    change (Py.replace "$name" (name device) "$trigger") with "$trigger".
    change (Py.replace "$identifier" (identifier device) "$trigger") with "$trigger".
    change (Py.replace "$port" (Py.fmt_opt_int (port device)) "$trigger") with "$trigger".
    change (Py.replace "$protocol" (Py.fmt_opt_str (proto device)) "$trigger") with "$trigger".
    change (Py.replace "$trigger" (monitor_trigger device) "$trigger") with ((monitor_trigger device) +:+ "").
    rewrite append_empty_r.
    by do 2 rewrite (replace_absent _ _ _ _ Hvalue). }
  apply elem_of_cons in Hin as [Hin|Hin].
  { injection Hin as -> ->.
    change (Py.replace "$name" (name device) "$requested_by") with "$requested_by".
    change (Py.replace "$identifier" (identifier device) "$requested_by") with "$requested_by".
    change (Py.replace "$port" (Py.fmt_opt_int (port device)) "$requested_by") with "$requested_by".
    change (Py.replace "$protocol" (Py.fmt_opt_str (proto device)) "$requested_by") with "$requested_by".
    change (Py.replace "$trigger" (monitor_trigger device) "$requested_by") with "$requested_by".
    change (Py.replace "$requested_by" (requested_by device) "$requested_by") with ((requested_by device) +:+ "").
    rewrite append_empty_r.
    by do 1 rewrite (replace_absent _ _ _ _ Hvalue). }
  apply elem_of_cons in Hin as [Hin|Hin].
  { injection Hin as -> ->.
    change (Py.replace "$name" (name device) "$comments") with "$comments".
    change (Py.replace "$identifier" (identifier device) "$comments") with "$comments".
    change (Py.replace "$port" (Py.fmt_opt_int (port device)) "$comments") with "$comments".
    change (Py.replace "$protocol" (Py.fmt_opt_str (proto device)) "$comments") with "$comments".
    change (Py.replace "$trigger" (monitor_trigger device) "$comments") with "$comments".
    change (Py.replace "$requested_by" (requested_by device) "$comments") with "$comments".
    change (Py.replace "$comments" (Py.fmt_opt_str (comments device)) "$comments") with ((Py.fmt_opt_str (comments device)) +:+ "").
    rewrite append_empty_r.
    done. }
  by apply elem_of_nil in Hin.
Qed.

Lemma placeholder_renders_its_field_witness :
  format_message Sample.printer "$protocol" = "TCP"
  ∧ format_message Sample.printer "$comments" = "second floor".
Proof.
  split.
  - apply (placeholder_renders_its_field Sample.printer "$protocol" "TCP");
      [|reflexivity].
    do 3 apply list_elem_of_further. apply list_elem_of_here.
  - apply (placeholder_renders_its_field Sample.printer "$comments" "second floor");
      [|reflexivity].
    do 6 apply list_elem_of_further. apply list_elem_of_here.
Defined.

(** ** The JSON encoding of a device *)

Lemma default_fields obj :
  MonitorDeviceEncoder.default obj
  = Some [("id", JInt (id obj)); ("name", JStr (name obj));
          ("identifier", JStr (identifier obj)); ("port", json_of_opt_int (port obj));
          ("proto", json_of_opt_str (proto obj)); ("persist", JBool (persist obj));
          ("monitor_trigger", JStr (monitor_trigger obj));
          ("monitor_start_utc", JStr (monitor_start_utc obj));
          ("monitor_end_utc", JStr (monitor_end_utc obj));
          ("requested_by", JStr (requested_by obj)); ("notify", JStr (notify obj));
          ("comments", json_of_opt_str (comments obj));
          ("email_subject", JStr (email_subject obj));
          ("email_body", JStr (email_body obj))].
Proof. reflexivity. Qed.

Lemma json_of_opt_int_inj x y : json_of_opt_int x = json_of_opt_int y → x = y.
Proof. destruct x, y; simpl; congruence. Qed.

Lemma json_of_opt_str_inj x y : json_of_opt_str x = json_of_opt_str y → x = y.
Proof. destruct x, y; simpl; congruence. Qed.

(** X17 (what the API shows of a device). The encoder never fails on a
    device; the dict has the fourteen keys of [encodable_vals], in this order,
    and no key [been_notified]; and two devices are encoded alike exactly when
    they differ at most in [been_notified]. *)
Theorem encoder_hides_only_the_flag :
  (∀ obj, ∃ fields, MonitorDeviceEncoder.default obj = Some fields
                    ∧ fields.*1 = MonitorDeviceEncoder.encodable_vals
                    ∧ "been_notified" ∉ fields.*1)
  ∧ (∀ obj obj',
       MonitorDeviceEncoder.default obj = MonitorDeviceEncoder.default obj'
       ↔ set_been_notified false obj = set_been_notified false obj').
Proof.
  split.
  - intros obj. eexists. split; [apply default_fields|]. split; [done|].
    simpl. intros Hin. by repeat (apply elem_of_cons in Hin as [Hin|Hin]; [done|]);
      apply elem_of_nil in Hin.
  - intros obj obj'. split.
    + rewrite !default_fields. intros Heq.
      destruct obj, obj'. simpl in *. unfold set_been_notified. simpl.
      injection Heq as -> -> -> Hport Hproto -> -> -> -> -> -> Hcomments -> ->.
      apply json_of_opt_int_inj in Hport. apply json_of_opt_str_inj in Hproto.
      apply json_of_opt_str_inj in Hcomments. by subst.
    + intros Heq.
      change (MonitorDeviceEncoder.default (set_been_notified false obj)
              = MonitorDeviceEncoder.default (set_been_notified false obj')).
      by rewrite Heq.
Qed.

(** ** The token guard *)

Lemma split_from_nonempty word s :
  Forall (λ w, w ≠ "") (Auth.split_from word s).
Proof.
  revert word. induction s as [|c s IH]; intros word; simpl.
  - destruct word; [constructor|]. by repeat constructor.
  - destruct (Auth.is_space c).
    + destruct word; [apply IH|]. constructor; [done|apply IH].
    + apply IH.
Qed.

Lemma split_word_nonempty s (i : nat) w : Auth.split s !! i = Some w → w ≠ "".
Proof.
  intros Hw. pose proof (split_from_nonempty "" s) as Hall.
  rewrite Forall_forall in Hall. apply Hall.
  by apply list_elem_of_lookup_2 in Hw.
Qed.

Lemma token_required_view {A} (f result : A) config env headers :
  Auth.token_required f config env headers = Auth.View result
  ↔ result = f
    ∧ ∃ authorization token key exp,
        headers !! "Authorization" = Some authorization
        ∧ Auth.split authorization !! 0%nat = Some "Bearer"
        ∧ Auth.split authorization !! 1%nat = Some token
        ∧ Auth.SECRET_KEY config = Some key
        ∧ Auth.jwt_decode env token (Some key) = Auth.Payload (Some exp)
        ∧ Auth.now_timestamp env < exp
        ∧ (Auth.REVOKED_TOKENS config !! token = None
           ∨ Auth.REVOKED_TOKENS config !! token = Some 0).
Proof.
  unfold Auth.token_required. split.
  - destruct (headers !! "Authorization") as [authorization|] eqn:Hheader; [|done].
    simpl. destruct (Auth.split authorization !! 0%nat) as [scheme|] eqn:Hscheme; [|done].
    destruct (String.eqb_spec scheme "Bearer") as [->|Hne]; [|done]. simpl.
    destruct (Auth.split authorization !! 1%nat) as [token|] eqn:Htoken; [|done].
    destruct (String.eqb token ""); [done|].
    destruct (Auth.SECRET_KEY config) as [key|] eqn:Hkey; [|done].
    destruct (Auth.jwt_decode env token (Some key)) as [[exp|]| | |] eqn:Hdecode;
      try done.
    destruct (Z.leb_spec exp (Auth.now_timestamp env)) as [Hle|Hlt]; [done|]. simpl.
    destruct (Auth.REVOKED_TOKENS config !! token) as [n|] eqn:Hrevoked; simpl.
    + destruct (Z.eqb_spec n 0) as [->|Hn]; [|done]. simpl. intros [= <-].
      split; [done|]. exists authorization, token, key, exp. auto 10.
    + intros [= <-]. split; [done|]. exists authorization, token, key, exp. auto 10.
  - intros (-> & authorization & token & key & exp & -> & Hscheme & Htoken & -> & Hdecode
            & Hexp & Hrevoked).
    simpl. rewrite Hscheme, Htoken. simpl.
    replace (String.eqb token "") with false
      by (symmetry; apply String.eqb_neq; by apply (split_word_nonempty _ _ _ Htoken)).
    rewrite Hdecode.
    replace (exp <=? Auth.now_timestamp env) with false by (symmetry; lia).
    by destruct Hrevoked as [-> | ->].
Qed.


(** X19 (a header of fewer than two words). When the [Authorization] header
    is blank, or is the word "Bearer" alone, the decorator and the DELETE
    branch of the token route do not answer: the index into the split header
    raises [IndexError]. *)
Theorem short_header_raises {A} (f : A) config env headers authorization :
  headers !! "Authorization" = Some authorization →
  Auth.split authorization = [] ∨ Auth.split authorization = ["Bearer"] →
  Auth.token_required f config env headers = Auth.Answer Auth.IndexError
  ∧ Auth.process_token_req_DELETE config env headers = (config, Auth.IndexError).
Proof.
  intros Hheader Hsplit.
  unfold Auth.token_required, Auth.process_token_req_DELETE. rewrite Hheader.
  by destruct Hsplit as [-> | ->].
Qed.

Lemma short_header_raises_witness :
  let config := {| Auth.SECRET_KEY := Some "dev"; Auth.REVOKED_TOKENS := ∅ |} in
  let env := {| Auth.jwt_decode := λ _ _, Auth.Payload (Some 100);
                Auth.now_timestamp := 50 |} in
  Auth.token_required () config env {["Authorization" := "Bearer "]}
  = Auth.Answer Auth.IndexError
  ∧ Auth.process_token_req_DELETE config env {["Authorization" := "Bearer "]}
    = (config, Auth.IndexError).
Proof.
  apply (short_header_raises () _ _ _ "Bearer ").
  - reflexivity.
  - right. reflexivity.
Defined.

(** X20 (a revoked token stays out). After the DELETE branch has answered 200
    for a token, with a clock that is not before the epoch, no later request
    that bears this token reaches a decorated view, as long as the payload
    that [jwt.decode] reads from the token stays the same. *)
Theorem revoked_token_is_refused {A} (f : A) config env env' headers headers'
    authorization authorization' token :
  headers !! "Authorization" = Some authorization →
  Auth.split authorization !! 1%nat = Some token →
  headers' !! "Authorization" = Some authorization' →
  Auth.split authorization' !! 1%nat = Some token →
  (Auth.process_token_req_DELETE config env headers).2 = Auth.Respond "" 200 →
  0 ≤ Auth.now_timestamp env ≤ Auth.now_timestamp env' →
  (∀ exp exp', Auth.jwt_decode env token (Auth.SECRET_KEY config) = Auth.Payload exp →
               Auth.jwt_decode env' token (Auth.SECRET_KEY config) = Auth.Payload exp' →
               exp' = exp) →
  ∀ result,
    Auth.token_required f (Auth.process_token_req_DELETE config env headers).1 env' headers'
    ≠ Auth.View result.
Proof.
  intros Hheader Htoken Hheader' Htoken' Hok Hclock Hstable result.
  unfold Auth.process_token_req_DELETE in *. rewrite Hheader in *. simpl in *.
  destruct (Auth.split authorization !! 0%nat) as [scheme|]; [|done].
  destruct (negb (String.eqb scheme "Bearer")); [done|].
  rewrite Htoken in *.
  destruct (Auth.jwt_decode env token (Auth.SECRET_KEY config)) as [[exp|]| | |]
    eqn:Hdecode; try done.
  simpl. clear Hok.
  rewrite token_required_view.
  intros (_ & authorization'' & token' & key & exp' & Hh & _ & Ht & Hkey & Hdecode'
          & Hexp & Hrevoked).
  rewrite Hheader' in Hh. injection Hh as <-.
  rewrite Htoken' in Ht. injection Ht as <-.
  assert (Auth.SECRET_KEY config = Some key) as Hkey0.
  { by destruct (exp >? Auth.now_timestamp env). }
  rewrite <- Hkey0 in Hdecode'.
  pose proof (Hstable _ _ eq_refl Hdecode') as [= ->].
  destruct (Z.gtb_spec exp (Auth.now_timestamp env)) as [Hgt|Hle].
  - simpl in Hrevoked. rewrite lookup_insert_eq in Hrevoked.
    destruct Hrevoked as [?|[= ->]]; [done|lia].
  - lia.
Qed.

Lemma revoked_token_is_refused_witness :
  let config := {| Auth.SECRET_KEY := Some "dev"; Auth.REVOKED_TOKENS := ∅ |} in
  let env := {| Auth.jwt_decode := λ _ _, Auth.Payload (Some 2000);
                Auth.now_timestamp := 1000 |} in
  let env' := {| Auth.jwt_decode := λ _ _, Auth.Payload (Some 2000);
                 Auth.now_timestamp := 1001 |} in
  let headers : gmap string string := {["Authorization" := "Bearer abc.def.ghi"]} in
  Auth.token_required () config env headers = Auth.View ()
  ∧ ∀ result,
      Auth.token_required () (Auth.process_token_req_DELETE config env headers).1
        env' headers ≠ Auth.View result.
Proof.
  intros config env env' headers. split; [reflexivity|].
  apply (revoked_token_is_refused () config env env' headers headers
           "Bearer abc.def.ghi" "Bearer abc.def.ghi" "abc.def.ghi").
  - reflexivity.
  - reflexivity.
  - reflexivity.
  - reflexivity.
  - reflexivity.
  - simpl. lia.
  - simpl. congruence.
Defined.

(** ** Users *)

Lemma filter_username_absent name (users : list Users.User) :
  (∀ row, row ∈ users → Users.username row ≠ name) →
  filter (λ row, Users.username row = name) users = [].
Proof.
  induction users as [|u users IH]; intros Hnone; [done|].
  rewrite filter_cons_False by (apply Hnone; by left).
  apply IH. intros row Hrow. apply Hnone. by right.
Qed.



(** X22 (who is verified). [verify_user] gives a user only when that user is
    in the table under the given name and [argon2.verify] accepts the password
    for its secret; for a name that no user has it does not give [None]: the
    query raises [NoResultFound]. *)
Theorem verify_user_sound argon2_verify name password users :
  (∀ user, Users.verify_user argon2_verify name password users = Users.Ok (Some user) →
           user ∈ users ∧ Users.username user = name
           ∧ argon2_verify password (Users.secret user) = Some true)
  ∧ ((∀ row, row ∈ users → Users.username row ≠ name) →
     Users.verify_user argon2_verify name password users = Users.NoResultFound).
Proof.
  unfold Users.verify_user, Users.read_user. split.
  - intros user.
    destruct (filter (λ row, Users.username row = name) users) as [|u [|u' rest]]
      eqn:Hfilter; try done.
    destruct (argon2_verify password (Users.secret u)) as [[|]|] eqn:Hverify; try done.
    intros [= ->].
    assert (user ∈ filter (λ row, Users.username row = name) users) as Hin
      by (rewrite Hfilter; by left).
    apply list_elem_of_filter in Hin as [Hname Hin]. done.
  - intros Hnone. by rewrite filter_username_absent.
Qed.

Lemma verify_user_sound_witness :
  Users.verify_user (λ password hash, Some (String.eqb hash ("h:" +:+ password)))
    "nobody" "pw" [{| Users.username := "admin"; Users.secret := "h:pw" |}]
  = Users.NoResultFound.
Proof.
  apply (verify_user_sound (λ password hash, Some (String.eqb hash ("h:" +:+ password)))
           "nobody" "pw" [{| Users.username := "admin"; Users.secret := "h:pw" |}]).
  intros row Hrow. apply list_elem_of_singleton in Hrow. by subst row.
Defined.
